(** * render: response rendering for Martini handlers

    A shallow embedding of [render.go] (package [render]): option
    defaulting, the template compiler with its directory walk, and the
    per-request renderer ([JSON], [XML], [HTML], [TEXT], [Data], [Error],
    [Status], [Redirect]) together with the layout helpers [yield] and
    [current].

    Conventions.
    - Go [string] and [[]byte] are byte sequences: both are [string] here.
    - Go [int] status codes are [Z]; no arithmetic is done on them.
    - Go maps are reference objects: a binding of type
      [map[string]interface{}] is an address into a store of maps.
    - A panic is an outcome of its own; so is running out of fuel, which
      stands for a [yield] recursion that never ends.
    - The collaborators the package calls but does not define
      ([path/filepath], [text/template], [html/template], [net/http],
      [bpool]) are modelled by what they do on the inputs the package
      gives them; each model says which part it covers. *)

From Stdlib Require Import ZArith Ascii String List.
From stdpp Require Import base option list gmap strings fin_maps.

Local Open Scope string_scope.
Local Open Scope Z_scope.

#[local] Arguments String.append : simpl nomatch.

(** ** Results, as Go's [(value, error)] pairs *)

Inductive result (A : Type) : Type :=
| Ok (a : A)
| Error (e : string).
Arguments Ok {A} a.
Arguments Error {A} e.

(** ** Package [strings] *)

Module strings.

(** [strings.Index(s, sep)] for a one-byte [sep], the only form the
    package uses: position of the first [sep] in [s]. *)
Fixpoint IndexNat (s : string) (sep : ascii) : option nat :=
  match s with
  | EmptyString => None
  | String c s' =>
      if Ascii.eqb c sep then Some O
      else match IndexNat s' sep with
           | Some n => Some (S n)
           | None => None
           end
  end.

Definition Index (s : string) (sep : ascii) : Z :=
  match IndexNat s sep with
  | Some n => Z.of_nat n
  | None => -1
  end.

(** [strings.Split(s, sep)] for a one-byte [sep]. *)
Fixpoint Split (s : string) (sep : ascii) : list string :=
  match s with
  | EmptyString => [EmptyString]
  | String c s' =>
      if Ascii.eqb c sep then EmptyString :: Split s' sep
      else match Split s' sep with
           | p :: ps => String c p :: ps
           | [] => [String c EmptyString]
           end
  end.

(** [strings.Join(elems, sep)]. *)
Fixpoint Join (elems : list string) (sep : string) : string :=
  match elems with
  | [] => EmptyString
  | [x] => x
  | x :: xs => x ++ sep ++ Join xs sep
  end.

(** [strings.ReplaceAll(s, old, new)] for a one-byte [old]. *)
Fixpoint ReplaceAll (s : string) (old : ascii) (new : string) : string :=
  match s with
  | EmptyString => EmptyString
  | String c s' =>
      if Ascii.eqb c old then new ++ ReplaceAll s' old new
      else String c (ReplaceAll s' old new)
  end.

End strings.

(** Go's slice expression [s[0:hi]]. *)
Definition slice_to (s : string) (hi : nat) : string := String.substring 0 hi s.

(** ** Constants *)

Definition ContentType : string := "Content-Type".
Definition ContentLength : string := "Content-Length".
Definition ContentBinary : string := "application/octet-stream".
Definition ContentJSON : string := "application/json".
Definition ContentHTML : string := "text/html".
Definition ContentXHTML : string := "application/xhtml+xml".
Definition ContentXML : string := "text/xml".
Definition defaultCharset : string := "UTF-8".

Definition dot : ascii := "."%char.

(** ** [getExt] and [prepareCharset] *)

Definition getExt (s : string) : string :=
  if Z.eqb (strings.Index s dot) (-1) then EmptyString
  else "." ++ strings.Join (tail (strings.Split s dot)) ".".

Definition prepareCharset (charset : string) : string :=
  if negb (Nat.eqb (String.length charset) 0) then "; charset=" ++ charset
  else "; charset=" ++ defaultCharset.


(** ** Outcomes and the state monad of the package's procedures

    A procedure either returns, panics, or (template execution only) is
    cut off because a [yield] recursion does not end. *)

Inductive outcome (A : Type) : Type :=
| Done (a : A)
| Panic (msg : string)
| OutOfFuel.
Arguments Done {A} a.
Arguments Panic {A} msg.
Arguments OutOfFuel {A}.

Definition M (S A : Type) : Type := S -> outcome (A * S).

Definition ret {S A : Type} (a : A) : M S A := fun s => Done (a, s).

Definition bind {S A B : Type} (c : M S A) (k : A -> M S B) : M S B :=
  fun s =>
    match c s with
    | Done (a, s') => k a s'
    | Panic msg => Panic msg
    | OutOfFuel => OutOfFuel
    end.

Definition get {S : Type} : M S S := fun s => Done (s, s).
Definition put {S : Type} (s : S) : M S unit := fun _ => Done (tt, s).
Definition modify {S : Type} (f : S -> S) : M S unit := fun s => Done (tt, f s).
Definition panic {S A : Type} (msg : string) : M S A := fun _ => Panic msg.

Notation "'let*' x ':=' c1 'in' c2" := (bind c1 (fun x => c2))
  (at level 10, x pattern, c1 at level 100, c2 at level 200).
Notation "c1 ';;' c2" := (bind c1 (fun _ => c2))
  (at level 100, c2 at level 200, right associativity).

(** ** Data model *)

(** Addresses of Go map objects. *)
Definition loc : Type := positive.

(** The values a handler binds to a template ([interface{}]).  A value of
    type [map[string]interface{}] is either the nil map or the address of a
    map object; every other dynamic type is opaque to the package. *)
Inductive value : Type :=
| VNil
| VString (s : string)
| VMap (l : loc)
| VNilMap
| VOther (tag : nat).

(** What a template helper returns: a plain [string], or a
    [template.HTML], which the escaping tree emits unescaped. *)
Inductive tval : Type :=
| TString (s : string)
| THTML (s : string).

(** Template helpers.  The closures the package builds are kept as data:
    the placeholders of [htmlhelperFuncs]/[texthelperFuncs], the closures
    made by [addYieldHtml] and [addYieldText] with the name and binding
    they capture, and user-supplied niladic helpers. *)
Inductive helper : Type :=
| HYieldNone
| HCurrentNone
| HYieldHtml (name : string) (binding : value)
| HYieldText (name : string) (binding : value)
| HCurrent (name : string)
| HUser (out : result tval).

(** The fragment of the template language covered: literal text and calls
    of niladic helpers, [{{f}}]. *)
Inductive node : Type :=
| NText (s : string)
| NCall (f : string).

(** A template set ([*template.Template] with its associated templates):
    its own name, the delimiters, the function table shared by all
    associated templates, and the parsed templates by name. *)
Record tmplset : Type := {
  tname : string;
  leftDelim : string;
  rightDelim : string;
  funcs : gmap string helper;
  tmpls : gmap string (list node)
}.

Record Delims : Type := { Left : string; Right : string }.

Record Options : Type := {
  Directory : string;
  Layout : string;
  Extensions : list string;
  HtmlFuncs : list (gmap string helper);
  TextFuncs : list (gmap string helper);
  OptDelims : Delims;
  Charset : string;
  IndentJSON : bool;
  IndentXML : bool;
  PrefixJSON : string;
  PrefixXML : string;
  HTMLContentType : string;
  Extra : gmap string string
}.

Record HTMLOptions : Type := {
  HLayout : string;
  HExtra : gmap string string
}.

Definition htmlhelperFuncs : gmap string helper :=
  <["yield" := HYieldNone]> (<["current" := HCurrentNone]> ∅).

Definition texthelperFuncs : gmap string helper :=
  <["yield" := HYieldNone]> (<["current" := HCurrentNone]> ∅).

(** The zero [Options] value. *)
Definition zeroOptions : Options :=
  {| Directory := EmptyString; Layout := EmptyString; Extensions := [];
     HtmlFuncs := []; TextFuncs := [];
     OptDelims := {| Left := EmptyString; Right := EmptyString |};
     Charset := EmptyString; IndentJSON := false; IndentXML := false;
     PrefixJSON := EmptyString; PrefixXML := EmptyString;
     HTMLContentType := EmptyString;
     Extra := ∅ |}.

Definition prepareOptions (options : list Options) : Options :=
  let opt := match options with o :: _ => o | [] => zeroOptions end in
  let opt :=
    if Nat.eqb (String.length (Directory opt)) 0
    then {| Directory := "templates"; Layout := Layout opt;
            Extensions := Extensions opt; HtmlFuncs := HtmlFuncs opt;
            TextFuncs := TextFuncs opt; OptDelims := OptDelims opt;
            Charset := Charset opt; IndentJSON := IndentJSON opt;
            IndentXML := IndentXML opt; PrefixJSON := PrefixJSON opt;
            PrefixXML := PrefixXML opt;
            HTMLContentType := HTMLContentType opt; Extra := Extra opt |}
    else opt in
  let opt :=
    if Nat.eqb (List.length (Extensions opt)) 0
    then {| Directory := Directory opt; Layout := Layout opt;
            Extensions := [".tmpl"]; HtmlFuncs := HtmlFuncs opt;
            TextFuncs := TextFuncs opt; OptDelims := OptDelims opt;
            Charset := Charset opt; IndentJSON := IndentJSON opt;
            IndentXML := IndentXML opt; PrefixJSON := PrefixJSON opt;
            PrefixXML := PrefixXML opt;
            HTMLContentType := HTMLContentType opt; Extra := Extra opt |}
    else opt in
  if Nat.eqb (String.length (HTMLContentType opt)) 0
  then {| Directory := Directory opt; Layout := Layout opt;
          Extensions := Extensions opt; HtmlFuncs := HtmlFuncs opt;
          TextFuncs := TextFuncs opt; OptDelims := OptDelims opt;
          Charset := Charset opt; IndentJSON := IndentJSON opt;
          IndentXML := IndentXML opt; PrefixJSON := PrefixJSON opt;
          PrefixXML := PrefixXML opt;
          HTMLContentType := ContentHTML; Extra := Extra opt |}
  else opt.

(** ** Package [text/template]: parsing, for the covered fragment

    The lexer cuts the source at the delimiters; an action must hold one
    identifier, the name of a helper known when the text is parsed.  Any
    other action is reported as an error: the real parser accepts more. *)

Definition quote : string := String (ascii_of_nat 34) EmptyString.

Definition result_map {A B : Type} (f : A -> B) (r : result A) : result B :=
  match r with
  | Ok a => Ok (f a)
  | Error e => Error e
  end.

Definition is_space (c : ascii) : bool :=
  let n := nat_of_ascii c in
  (Nat.eqb n 32 || Nat.eqb n 9 || Nat.eqb n 13 || Nat.eqb n 10)%bool.

Definition is_alpha (c : ascii) : bool :=
  let n := nat_of_ascii c in
  ((Nat.leb 65 n && Nat.leb n 90) || (Nat.leb 97 n && Nat.leb n 122)
   || Nat.eqb n 95)%bool.

Definition is_digit (c : ascii) : bool :=
  let n := nat_of_ascii c in (Nat.leb 48 n && Nat.leb n 57)%bool.

Fixpoint string_forall (p : ascii -> bool) (s : string) : bool :=
  match s with
  | EmptyString => true
  | String c s' => (p c && string_forall p s')%bool
  end.

Fixpoint trim_left (s : string) : string :=
  match s with
  | EmptyString => EmptyString
  | String c s' => if is_space c then trim_left s' else s
  end.

Fixpoint trim_right (s : string) : string :=
  match s with
  | EmptyString => EmptyString
  | String c s' =>
      match trim_right s' with
      | EmptyString => if is_space c then EmptyString else String c EmptyString
      | t => String c t
      end
  end.

Definition trim_space (s : string) : string := trim_right (trim_left s).

Definition is_identifier (s : string) : bool :=
  match s with
  | EmptyString => false
  | String c s' =>
      (is_alpha c && string_forall (fun x => (is_alpha x || is_digit x)%bool) s')%bool
  end.

(** Words the real parser does not read as a helper name. *)
Definition reserved_words : list string :=
  ["if"; "else"; "end"; "range"; "with"; "template"; "define"; "block";
   "break"; "continue"; "nil"; "true"; "false"].

Definition is_reserved (s : string) : bool :=
  existsb (String.eqb s) reserved_words.

Inductive token : Type :=
| TokText (s : string)
| TokAction (s : string).

Inductive lexmode : Type := InText | InAction.

Definition snoc_char (s : string) (c : ascii) : string :=
  s ++ String c EmptyString.

(** [skip] counts the bytes of a delimiter still to be passed over. *)
Fixpoint lex (l r : string) (src : string) (skip : nat) (mode : lexmode)
    (acc : string) : result (list token) :=
  match src with
  | EmptyString =>
      match mode with
      | InText => Ok [TokText acc]
      | InAction => Error "unclosed action"
      end
  | String c rest =>
      match skip with
      | S k => lex l r rest k mode acc
      | O =>
          match mode with
          | InText =>
              if String.prefix l src
              then result_map (cons (TokText acc))
                     (lex l r rest (Nat.pred (String.length l)) InAction EmptyString)
              else lex l r rest O InText (snoc_char acc c)
          | InAction =>
              if String.prefix r src
              then result_map (cons (TokAction acc))
                     (lex l r rest (Nat.pred (String.length r)) InText EmptyString)
              else lex l r rest O InAction (snoc_char acc c)
          end
      end
  end.

Fixpoint nodes_of (defined : string -> bool) (toks : list token)
    : result (list node) :=
  match toks with
  | [] => Ok []
  | TokText EmptyString :: ts => nodes_of defined ts
  | TokText s :: ts => result_map (cons (NText s)) (nodes_of defined ts)
  | TokAction a :: ts =>
      let id := trim_space a in
      if (is_identifier id && negb (is_reserved id))%bool then
        if defined id
        then result_map (cons (NCall id)) (nodes_of defined ts)
        else Error ("function " ++ quote ++ id ++ quote ++ " not defined")
      else Error "action outside the covered fragment"
  end.

(** An empty delimiter stands for the default one. *)
Definition effective_left (l : string) : string :=
  match l with EmptyString => "{{" | _ => l end.
Definition effective_right (r : string) : string :=
  match r with EmptyString => "}}" | _ => r end.

Definition parse (l r : string) (defined : string -> bool) (text : string)
    : result (list node) :=
  match lex (effective_left l) (effective_right r) text O InText EmptyString with
  | Ok toks => nodes_of defined toks
  | Error e => Error e
  end.

(** [parse.IsEmptyTree]: nothing but white space. *)
Definition IsEmptyTree (ns : list node) : bool :=
  forallb (fun n => match n with
                    | NText s => string_forall is_space s
                    | NCall _ => false
                    end) ns.

(** ** Template sets: [New], [Delims], [Funcs], [Parse] *)

Module Template.

Definition New (name : string) : tmplset :=
  {| tname := name; leftDelim := EmptyString; rightDelim := EmptyString;
     funcs := ∅; tmpls := ∅ |}.

Definition SetDelims (l r : string) (t : tmplset) : tmplset :=
  {| tname := tname t; leftDelim := l; rightDelim := r;
     funcs := funcs t; tmpls := tmpls t |}.

(** [t.Funcs(m)]: the entries of [m] are added to the shared table and
    replace the entries of the same name. *)
Definition Funcs (m : gmap string helper) (t : tmplset) : tmplset :=
  {| tname := tname t; leftDelim := leftDelim t; rightDelim := rightDelim t;
     funcs := m ∪ funcs t; tmpls := tmpls t |}.

Definition defined (t : tmplset) (f : string) : bool :=
  match funcs t !! f with Some _ => true | None => false end.

(** [t.New(name).Parse(text)]: the parsed text becomes the template
    [name] of the set, unless a template of that name exists and the new
    text is empty ([associate]). *)
Definition ParseNamed (name text : string) (t : tmplset) : result tmplset :=
  match parse (leftDelim t) (rightDelim t) (defined t) text with
  | Error e => Error e
  | Ok ns =>
      match tmpls t !! name with
      | Some _ =>
          if IsEmptyTree ns then Ok t
          else Ok {| tname := tname t; leftDelim := leftDelim t;
                     rightDelim := rightDelim t; funcs := funcs t;
                     tmpls := <[name := ns]> (tmpls t) |}
      | None =>
          Ok {| tname := tname t; leftDelim := leftDelim t;
                rightDelim := rightDelim t; funcs := funcs t;
                tmpls := <[name := ns]> (tmpls t) |}
      end
  end.

End Template.

(** ** The response, the request, and the host

    [response] records what a [http.ResponseWriter] has been told: the
    header map, the status once written, and the body bytes. *)

Record response : Type := {
  headers : gmap string (list string);
  code : option Z;
  body : string
}.

Record request : Type := { method : string; target : string }.

(** What the package takes from its host and from the standard library
    without looking inside: the path separator of the operating system,
    the JSON and XML encoders (they read the map store to encode a map
    binding), and [http.Redirect]. *)
Class Host : Type := {
  Separator : ascii;
  json_Marshal : gmap loc (gmap string value) -> value -> result string;
  json_MarshalIndent :
    gmap loc (gmap string value) -> value -> string -> string -> result string;
  xml_Marshal : gmap loc (gmap string value) -> value -> result string;
  xml_MarshalIndent :
    gmap loc (gmap string value) -> value -> string -> string -> result string;
  http_Redirect : response -> request -> string -> Z -> response
}.

(** ** The file system seen by [filepath.Walk]

    A node is a file with what [ioutil.ReadFile] gives for it, a directory
    with its entries in the order [Walk] visits them, a directory whose
    listing fails, or a name whose [Lstat] fails (at the root: a missing
    directory). *)
#[warnings="-register-all"]
Inductive fnode : Type :=
| File (data : result string)
| Dir (entries : list (string * fnode))
| DirNoList (e : string)
| NoStat (e : string).

Definition ReadFile (n : fnode) : result string :=
  match n with
  | File data => data
  | Dir _ => Error "read: is a directory"
  | DirNoList _ => Error "read: is a directory"
  | NoStat e => Error e
  end.

Module filepath.

(** [filepath.Rel(dir, path)] for a path that [Walk] built below [dir]:
    the components below the root joined by the separator, or [.] for the
    root itself.  A path is kept as its components below the root. *)
Definition Rel `{Host} (path : list string) : result string :=
  match path with
  | [] => Ok "."
  | _ => Ok (strings.Join path (String Separator EmptyString))
  end.

Definition ToSlash `{Host} (path : string) : string :=
  if Ascii.eqb Separator "/"%char then path
  else strings.ReplaceAll path Separator "/".

(** [filepath.Walk]: the function is called on the node, then on the
    entries of a directory that could be listed; the first error the
    function returns ends the walk and is the result.  ([SkipDir] is left
    out: the function passed by [compile] never returns it.) *)
Fixpoint walk {S : Type}
    (fn : list string -> fnode -> option string -> M S (option string))
    (path : list string) (n : fnode) : M S (option string) :=
  match n with
  | File _ => fn path n None
  | NoStat e => fn path n (Some e)
  | DirNoList e => fn path n (Some e)
  | Dir entries =>
      let* err1 := fn path n None in
      match err1 with
      | Some e => ret (Some e)
      | None =>
          (fix each (es : list (string * fnode)) : M S (option string) :=
             match es with
             | [] => ret None
             | (name, child) :: es' =>
                 let* err := walk fn (app path [name]) child in
                 match err with
                 | Some e => ret (Some e)
                 | None => each es'
                 end
             end) entries
      end
  end.

Definition Walk {S : Type}
    (root : fnode)
    (fn : list string -> fnode -> option string -> M S (option string))
    : M S (option string) :=
  walk fn [] root.

End filepath.

(** ** [compile] *)

(** [for _, extension := range options.Extensions { if ext == extension
    { ...; break } }] *)
Fixpoint range_extensions {S : Type} (ext : string) (extensions : list string)
    (body : M S unit) : M S unit :=
  match extensions with
  | [] => ret tt
  | extension :: rest =>
      if String.eqb ext extension then body
      else range_extensions ext rest body
  end.

Definition Must {S : Type} (r : result tmplset) : M S tmplset :=
  match r with
  | Ok t => ret t
  | Error e => panic e
  end.

Definition apply_funcs (fs : list (gmap string helper)) (t : tmplset) : tmplset :=
  fold_left (fun t funcs => Template.Funcs funcs t) fs t.

(** The body run for a path whose extension is configured. *)
Definition register `{Host} (options : Options) (r ext : string) (info : fnode)
    : M (tmplset * tmplset) unit :=
  match ReadFile info with
  | Error e => panic e
  | Ok buf =>
      let name := slice_to r (String.length r - String.length ext) in
      let* st := get in
      let htmpl := apply_funcs (HtmlFuncs options) (fst st) in
      let ttmpl := apply_funcs (TextFuncs options) (snd st) in
      let* ht :=
        Must (Template.ParseNamed (filepath.ToSlash name) buf
                (Template.Funcs htmlhelperFuncs htmpl)) in
      let* tt' :=
        Must (Template.ParseNamed (filepath.ToSlash name) buf
                (Template.Funcs texthelperFuncs ttmpl)) in
      put (ht, tt')
  end.

(** The function [compile] hands to [filepath.Walk].  The error [Walk]
    reports for the path is overwritten by the result of [Rel]. *)
Definition walkFn `{Host} (options : Options)
    (path : list string) (info : fnode) (err : option string)
    : M (tmplset * tmplset) (option string) :=
  match filepath.Rel path with
  | Error e => ret (Some e)
  | Ok r =>
      let ext := getExt r in
      range_extensions ext (Extensions options) (register options r ext info) ;;
      ret None
  end.

Definition placeholder (options : Options) : result tmplset :=
  Template.ParseNamed (Directory options) "Martini"
    (Template.SetDelims (Left (OptDelims options)) (Right (OptDelims options))
       (Template.New (Directory options))).

Definition compile `{Host} (options : Options) (fs : fnode)
    : outcome (tmplset * tmplset) :=
  match placeholder options with
  | Error e => Panic e
  | Ok ht =>
      match placeholder options with
      | Error e => Panic e
      | Ok tt' =>
          (* the result of Walk is dropped *)
          match filepath.Walk fs (walkFn options) (ht, tt') with
          | Done (_, st) => Done st
          | Panic msg => Panic msg
          | OutOfFuel => OutOfFuel
          end
      end
  end.

(** ** Package [bpool]: the buffer pool

    [avail] buffers wait in the pool, at most [capacity]; [gets] and [puts]
    count the calls.  A buffer is reset when it is put back, so every
    buffer handed out is empty. *)

Record pool : Type := {
  avail : nat;
  capacity : nat;
  gets : nat;
  puts : nat
}.

Module bpool.

Definition NewBufferPool (size : nat) : pool :=
  {| avail := 0; capacity := size; gets := 0; puts := 0 |}.

Definition Get (p : pool) : pool :=
  {| avail := Nat.pred (avail p); capacity := capacity p;
     gets := S (gets p); puts := puts p |}.

Definition Put (p : pool) : pool :=
  {| avail := if Nat.ltb (avail p) (capacity p) then S (avail p) else avail p;
     capacity := capacity p; gets := gets p; puts := S (puts p) |}.

(** Buffers taken and not put back. *)
Definition outstanding (p : pool) : nat := (gets p - puts p)%nat.

End bpool.

(** ** The world a renderer acts on

    The response writer, the two template sets the renderer points to,
    the package-level pool, the store of Go maps, and standard output. *)

Record world : Type := {
  res : response;
  r_ht : tmplset;
  r_tt : tmplset;
  bufpool : pool;
  store : gmap loc (gmap string value);
  stdout : string
}.

Record renderer : Type := {
  req : request;
  opt : Options;
  compiledCharset : string
}.

Definition with_res (f : response -> response) (w : world) : world :=
  {| res := f (res w); r_ht := r_ht w; r_tt := r_tt w; bufpool := bufpool w;
     store := store w; stdout := stdout w |}.

Definition with_ht (f : tmplset -> tmplset) (w : world) : world :=
  {| res := res w; r_ht := f (r_ht w); r_tt := r_tt w; bufpool := bufpool w;
     store := store w; stdout := stdout w |}.

Definition with_tt (f : tmplset -> tmplset) (w : world) : world :=
  {| res := res w; r_ht := r_ht w; r_tt := f (r_tt w); bufpool := bufpool w;
     store := store w; stdout := stdout w |}.

Definition with_bufpool (f : pool -> pool) (w : world) : world :=
  {| res := res w; r_ht := r_ht w; r_tt := r_tt w; bufpool := f (bufpool w);
     store := store w; stdout := stdout w |}.

Definition with_store
    (f : gmap loc (gmap string value) -> gmap loc (gmap string value))
    (w : world) : world :=
  {| res := res w; r_ht := r_ht w; r_tt := r_tt w; bufpool := bufpool w;
     store := f (store w); stdout := stdout w |}.

Definition with_stdout (f : string -> string) (w : world) : world :=
  {| res := res w; r_ht := r_ht w; r_tt := r_tt w; bufpool := bufpool w;
     store := store w; stdout := f (stdout w) |}.

Definition newline : string := String (ascii_of_nat 10) EmptyString.

(** [fmt.Println(s)] *)
Definition Println (s : string) : M world unit :=
  modify (with_stdout (fun out => out ++ s ++ newline)).

(** ** Package [net/http]: the response writer *)

Module http.

Definition StatusFound : Z := 302.
Definition StatusInternalServerError : Z := 500.

Definition HeaderSet (k v : string) (rs : response) : response :=
  {| headers := <[k := [v]]> (headers rs); code := code rs; body := body rs |}.

Definition HeaderDel (k : string) (rs : response) : response :=
  {| headers := delete k (headers rs); code := code rs; body := body rs |}.

Definition HeaderGet (k : string) (rs : response) : string :=
  match headers rs !! k with
  | Some (v :: _) => v
  | _ => EmptyString
  end.

(** Only the first [WriteHeader] counts. *)
Definition WriteHeader (c : Z) (rs : response) : response :=
  match code rs with
  | Some _ => rs
  | None => {| headers := headers rs; code := Some c; body := body rs |}
  end.

(** A [Write] before any [WriteHeader] sends status 200. *)
Definition Write (b : string) (rs : response) : response :=
  let rs := WriteHeader 200 rs in
  {| headers := headers rs; code := code rs; body := body rs ++ b |}.

(** [http.Error]: a plain-text reply; [fmt.Fprintln] ends the message
    with a newline. *)
Definition Error (error : string) (c : Z) (rs : response) : response :=
  let rs := HeaderDel "Content-Length" rs in
  let rs := HeaderSet "Content-Type" "text/plain; charset=utf-8" rs in
  let rs := HeaderSet "X-Content-Type-Options" "nosniff" rs in
  let rs := WriteHeader c rs in
  Write (error ++ newline) rs.

End http.

(** [io.Copy(r, buf)]: nothing is written for an empty buffer. *)
Definition io_Copy (buf : string) (rs : response) : response :=
  match buf with
  | EmptyString => rs
  | _ => http.Write buf rs
  end.

(** ** Template execution, for the covered fragment *)

Inductive kind : Type := Escaping | Plain.

Definition tree_of (k : kind) (w : world) : tmplset :=
  match k with
  | Escaping => r_ht w
  | Plain => r_tt w
  end.

(** The escaper [html/template] puts on an action in HTML text. *)
Fixpoint htmlEscape (s : string) : string :=
  match s with
  | EmptyString => EmptyString
  | String c s' =>
      let n := nat_of_ascii c in
      (if Nat.eqb n 0
       then String (ascii_of_nat 239) (String (ascii_of_nat 191)
              (String (ascii_of_nat 189) EmptyString))
       else if Nat.eqb n 34 then "&#34;"
       else if Nat.eqb n 38 then "&amp;"
       else if Nat.eqb n 39 then "&#39;"
       else if Nat.eqb n 43 then "&#43;"
       else if Nat.eqb n 60 then "&lt;"
       else if Nat.eqb n 62 then "&gt;"
       else String c EmptyString) ++ htmlEscape s'
  end.

Definition emit (k : kind) (v : tval) : string :=
  match k, v with
  | Escaping, TString s => htmlEscape s
  | _, TString s => s
  | _, THTML s => s
  end.

Definition undefined_template (k : kind) (t : tmplset) (name : string) : string :=
  match k with
  | Escaping => "html/template: " ++ quote ++ name ++ quote ++ " is undefined"
  | Plain => "template: no template " ++ quote ++ name ++ quote
             ++ " associated with template " ++ quote ++ tname t ++ quote
  end.

(** Calling a helper.  [exec] is the renderer's [executeHtml] or
    [executeText], chosen by the closure. *)
Definition call_helper
    (exec : kind -> string -> value -> M world (string * option string))
    (h : helper) : M world (tval * option string) :=
  match h with
  | HYieldNone =>
      ret (TString EmptyString, Some "yield called with no layout defined")
  | HCurrentNone => ret (TString EmptyString, None)
  | HYieldHtml name binding =>
      let* r := exec Escaping name binding in
      ret (THTML (fst r), snd r)
  | HYieldText name binding =>
      let* r := exec Plain name binding in
      ret (THTML (fst r), snd r)
  | HCurrent name => ret (TString name, None)
  | HUser (Ok v) => ret (v, None)
  | HUser (Error e) => ret (TString EmptyString, Some e)
  end.

(** Running the nodes of a template into [buf]; the first helper error
    stops the run and leaves what was written. *)
Fixpoint run_nodes
    (exec : kind -> string -> value -> M world (string * option string))
    (k : kind) (ns : list node) (buf : string)
    : M world (string * option string) :=
  match ns with
  | [] => ret (buf, None)
  | NText s :: ns' => run_nodes exec k ns' (buf ++ s)
  | NCall f :: ns' =>
      let* w := get in
      match funcs (tree_of k w) !! f with
      | None =>
          ret (buf, Some (quote ++ f ++ quote ++ " is not a defined function"))
      | Some h =>
          let* r := call_helper exec h in
          match snd r with
          | Some e => ret (buf, Some ("error calling " ++ f ++ ": " ++ e))
          | None => run_nodes exec k ns' (buf ++ emit k (fst r))
          end
      end
  end.

(** [t.ExecuteTemplate(buf, name, binding)] on an empty buffer. *)
Definition ExecuteTemplate
    (exec : kind -> string -> value -> M world (string * option string))
    (k : kind) (name : string) (binding : value)
    : M world (string * option string) :=
  let* w := get in
  match tmpls (tree_of k w) !! name with
  | None => ret (EmptyString, Some (undefined_template k (tree_of k w) name))
  | Some ns => run_nodes exec k ns EmptyString
  end.

(** [executeHtml] and [executeText]: take a buffer from the pool and
    execute into it.  Each nested [yield] uses one unit of fuel. *)
Fixpoint execute (fuel : nat) (k : kind) (name : string) (binding : value)
    : M world (string * option string) :=
  match fuel with
  | O => fun _ => OutOfFuel
  | S fuel' =>
      modify (with_bufpool bpool.Get) ;;
      ExecuteTemplate (execute fuel') k name binding
  end.

Definition executeHtml (fuel : nat) (name : string) (binding : value)
    : M world (string * option string) :=
  execute fuel Escaping name binding.

Definition executeText (fuel : nat) (name : string) (binding : value)
    : M world (string * option string) :=
  execute fuel Plain name binding.

(** ** The renderer's methods *)

Definition yieldHtmlFuncs (name : string) (binding : value) : gmap string helper :=
  <["yield" := HYieldHtml name binding]> (<["current" := HCurrent name]> ∅).

Definition yieldTextFuncs (name : string) (binding : value) : gmap string helper :=
  <["yield" := HYieldText name binding]> (<["current" := HCurrent name]> ∅).

Definition addYieldHtml (name : string) (binding : value) : M world unit :=
  modify (with_ht (Template.Funcs (yieldHtmlFuncs name binding))).

(** The closure executes in the plain tree; the table it is added to is
    that of [r.ht]. *)
Definition addYieldText (name : string) (binding : value) : M world unit :=
  modify (with_ht (Template.Funcs (yieldTextFuncs name binding))).

Definition prepareHTMLOptions (r : renderer) (htmlOpt : list HTMLOptions)
    : HTMLOptions :=
  match htmlOpt with
  | o :: _ => o
  | [] => {| HLayout := Layout (opt r); HExtra := Extra (opt r) |}
  end.

(** [for k, v := range opt.Extra { temp_binding[k] = v }] *)
Definition merge_extra (extra : gmap string string) (m : gmap string value)
    : gmap string value :=
  map_fold (fun k v acc => <[k := VString v]> acc) m extra.

(** The type assertion [binding.(map[string]interface{})] and the loop
    under it: the map object the binding points to is written to.
    Writing to the nil map panics. *)
Definition merge_into_binding (extra : gmap string string) (binding : value)
    : M world unit :=
  match binding with
  | VMap l => modify (with_store (alter (merge_extra extra) l))
  | VNilMap =>
      match map_to_list extra with
      | [] => ret tt
      | _ :: _ => panic "assignment to entry in nil map"
      end
  | _ => ret tt
  end.

Definition http_Error (e : string) (c : Z) : M world unit :=
  modify (with_res (http.Error e c)).

(** [HTML] up to the execution of the template. *)
Definition HTML_render `{Host} (fuel : nat) (r : renderer) (name : string)
    (binding : value) (htmlOpt : list HTMLOptions)
    : M world (string * option string) :=
  let o := prepareHTMLOptions r htmlOpt in
  let* name' :=
    (if Nat.ltb 0 (String.length (HLayout o))
     then addYieldHtml name binding ;; ret (HLayout o)
     else ret name) in
  merge_into_binding (HExtra o) binding ;;
  let* w := get in
  match json_MarshalIndent (store w) binding EmptyString " " with
  | Ok b => Println b
  | Error _ => ret tt
  end ;;
  executeHtml fuel name' binding.

Definition HTML `{Host} (fuel : nat) (r : renderer) (status : Z) (name : string)
    (binding : value) (htmlOpt : list HTMLOptions) : M world unit :=
  let* be := HTML_render fuel r name binding htmlOpt in
  match snd be with
  | Some e => http_Error e http.StatusInternalServerError
  | None =>
      modify (with_res (http.HeaderSet ContentType
                          (HTMLContentType (opt r) ++ compiledCharset r))) ;;
      modify (with_res (http.WriteHeader status)) ;;
      modify (with_res (io_Copy (fst be))) ;;
      modify (with_bufpool bpool.Put)
  end.

(** [TEXT] up to the execution of the template. *)
Definition TEXT_render (fuel : nat) (r : renderer) (name : string)
    (binding : value) (htmlOpt : list HTMLOptions)
    : M world (string * option string) :=
  let o := prepareHTMLOptions r htmlOpt in
  let* name' :=
    (if Nat.ltb 0 (String.length (HLayout o))
     then addYieldText name binding ;; ret (HLayout o)
     else ret name) in
  executeText fuel name' binding.

Definition TEXT (fuel : nat) (r : renderer) (status : Z) (name : string)
    (binding : value) (htmlOpt : list HTMLOptions) : M world unit :=
  let* be := TEXT_render fuel r name binding htmlOpt in
  match snd be with
  | Some e => http_Error e http.StatusInternalServerError
  | None =>
      modify (with_res (http.HeaderSet ContentType
                          (HTMLContentType (opt r) ++ compiledCharset r))) ;;
      modify (with_res (http.WriteHeader status)) ;;
      modify (with_res (io_Copy (fst be))) ;;
      modify (with_bufpool bpool.Put)
  end.

Definition json_encode `{Host} (r : renderer) (w : world) (v : value)
    : result string :=
  if IndentJSON (opt r) then json_MarshalIndent (store w) v EmptyString "  "
  else json_Marshal (store w) v.

Definition JSON `{Host} (r : renderer) (status : Z) (v : value) : M world unit :=
  let* w := get in
  match json_encode r w v with
  | Error e => http_Error e 500
  | Ok result =>
      modify (with_res (http.HeaderSet ContentType
                          (ContentJSON ++ compiledCharset r))) ;;
      modify (with_res (http.WriteHeader status)) ;;
      (if Nat.ltb 0 (String.length (PrefixJSON (opt r)))
       then modify (with_res (http.Write (PrefixJSON (opt r))))
       else ret tt) ;;
      modify (with_res (http.Write result))
  end.

Definition xml_encode `{Host} (r : renderer) (w : world) (v : value)
    : result string :=
  if IndentXML (opt r) then xml_MarshalIndent (store w) v EmptyString "  "
  else xml_Marshal (store w) v.

Definition XML `{Host} (r : renderer) (status : Z) (v : value) : M world unit :=
  let* w := get in
  match xml_encode r w v with
  | Error e => http_Error e 500
  | Ok result =>
      modify (with_res (http.HeaderSet ContentType
                          (ContentXML ++ compiledCharset r))) ;;
      modify (with_res (http.WriteHeader status)) ;;
      (if Nat.ltb 0 (String.length (PrefixXML (opt r)))
       then modify (with_res (http.Write (PrefixXML (opt r))))
       else ret tt) ;;
      modify (with_res (http.Write result))
  end.

Definition Data (r : renderer) (status : Z) (v : string) : M world unit :=
  let* w := get in
  (if String.eqb (http.HeaderGet ContentType (res w)) EmptyString
   then modify (with_res (http.HeaderSet ContentType ContentBinary))
   else ret tt) ;;
  modify (with_res (http.WriteHeader status)) ;;
  modify (with_res (http.Write v)).

Definition Error_ (r : renderer) (status : Z) : M world unit :=
  modify (with_res (http.WriteHeader status)).

Definition Status (r : renderer) (status : Z) : M world unit :=
  modify (with_res (http.WriteHeader status)).

(** [status ...int] is the list of the optional arguments. *)
Definition Redirect `{Host} (r : renderer) (location : string) (status : list Z)
    : M world unit :=
  let code := match status with
              | [c] => c
              | _ => http.StatusFound
              end in
  modify (with_res (fun rs => http_Redirect rs (req r) location code)).

Definition HtmlTemplate (r : renderer) : M world tmplset :=
  let* w := get in ret (r_ht w).

Definition TextTemplate (r : renderer) : M world tmplset :=
  let* w := get in ret (r_tt w).

(** ** [Renderer]: the middleware

    [Renderer] compiles once and makes the pool; the handler it returns
    builds, for each request, a renderer on freshly compiled sets
    (development) or on copies of the compiled ones. *)

Record middleware : Type := {
  m_opt : Options;
  m_cs : string;
  m_ht : tmplset;
  m_tt : tmplset
}.

Definition Renderer `{Host} (options : list Options) (fs : fnode)
    : outcome (middleware * pool) :=
  let o := prepareOptions options in
  let cs := prepareCharset (Charset o) in
  match compile o fs with
  | Done (ht, tt') =>
      Done ({| m_opt := o; m_cs := cs; m_ht := ht; m_tt := tt' |},
            bpool.NewBufferPool 64)
  | Panic msg => Panic msg
  | OutOfFuel => OutOfFuel
  end.

Definition handler `{Host} (m : middleware) (dev : bool) (fs : fnode)
    (rq : request) (w : world) : outcome (renderer * world) :=
  let r := {| req := rq; opt := m_opt m; compiledCharset := m_cs m |} in
  if dev then
    match compile (m_opt m) fs with
    | Done (htc, ttc) =>
        Done (r, with_tt (fun _ => ttc) (with_ht (fun _ => htc) w))
    | Panic msg => Panic msg
    | OutOfFuel => OutOfFuel
    end
  else
    Done (r, with_tt (fun _ => m_tt m) (with_ht (fun _ => m_ht m) w)).

(** ** A host and sample data to run the model on

    The encoders of [sample_host] cover nil and strings without special
    characters and refuse every other value; its [http.Redirect] sets
    [Location] and writes the status. *)

Definition sample_json (st : gmap loc (gmap string value)) (v : value)
    : result string :=
  match v with
  | VNil => Ok "null"
  | VString s => Ok (quote ++ s ++ quote)
  | _ => Error "json: unsupported type"
  end.

Definition sample_xml (st : gmap loc (gmap string value)) (v : value)
    : result string :=
  match v with
  | VString s => Ok ("<string>" ++ s ++ "</string>")
  | _ => Error "xml: unsupported type"
  end.

Definition sample_host : Host :=
  {| Separator := "/"%char;
     json_Marshal := sample_json;
     json_MarshalIndent := fun st v _ _ => sample_json st v;
     xml_Marshal := sample_xml;
     xml_MarshalIndent := fun st v _ _ => sample_xml st v;
     http_Redirect := fun rs _ location c =>
       http.WriteHeader c (http.HeaderSet "Location" location rs) |}.

Definition fresh_response : response :=
  {| headers := ∅; code := None; body := EmptyString |}.

Definition sample_request : request := {| method := "GET"; target := "/" |}.

(** A template directory with a layout and a content template. *)
Definition layout_fs : fnode :=
  Dir [("L.tmpl", File (Ok "L[{{yield}}]"));
       ("content.tmpl", File (Ok "hi"))].

Definition world_of (ht tt' : tmplset) (p : pool)
    (st : gmap loc (gmap string value)) : world :=
  {| res := fresh_response; r_ht := ht; r_tt := tt'; bufpool := p;
     store := st; stdout := EmptyString |}.

Definition sample_renderer : renderer :=
  {| req := sample_request; opt := prepareOptions [];
     compiledCharset := prepareCharset EmptyString |}.

Definition empty_world : world :=
  world_of (Template.New "templates") (Template.New "templates")
    (bpool.NewBufferPool 64) ∅.

(** The middleware over [layout_fs] with default options, and the world
    its handler gives a production request. *)
Definition sample_middleware : middleware :=
  match @Renderer sample_host [] layout_fs with
  | Done (m, _) => m
  | _ => {| m_opt := zeroOptions; m_cs := EmptyString;
            m_ht := Template.New EmptyString; m_tt := Template.New EmptyString |}
  end.

Definition layout_world : world :=
  match @handler sample_host sample_middleware false layout_fs sample_request
          empty_world with
  | Done (_, w) => w
  | _ => empty_world
  end.

Definition layout_L : HTMLOptions := {| HLayout := "L"; HExtra := ∅ |}.

(** A production world whose store holds one map, at address 1, and a
    call of [HTML] that binds it with one extra pair configured. *)
Definition map_world : world :=
  with_store (fun _ => <[1%positive := <["a" := VString "1"]> ∅]> ∅) layout_world.

Definition extra_kv : HTMLOptions :=
  {| HLayout := EmptyString; HExtra := <["k" := "v"]> ∅ |}.

Definition map_world_after_HTML : world :=
  match @HTML sample_host 3 sample_renderer 200 "content" (VMap 1%positive)
          [extra_kv] map_world with
  | Done (_, w) => w
  | _ => empty_world
  end.


(** A template directory whose only file has two dots in its name. *)
Definition fs_two_dots : fnode :=
  Dir [("page.html.tmpl", File (Ok "x"))].


Definition default_placeholder : tmplset :=
  {| tname := "templates"; leftDelim := EmptyString; rightDelim := EmptyString;
     funcs := ∅; tmpls := {[ "templates" := [NText "Martini"] ]} |}.

(** ** Notions used to state the properties *)

(** The part of a relative path before its first dot. *)
Definition stem (r : string) : string :=
  hd EmptyString (strings.Split r dot).

(** The name [compile] gives to the template read at relative path [r]. *)
Definition template_name `{Host} (r : string) : string :=
  filepath.ToSlash (slice_to r (String.length r - String.length (getExt r))).

Definition configured (options : Options) (r : string) : bool :=
  existsb (String.eqb (getExt r)) (Extensions options).

(** The relative path [Rel] gives for the components of a visited path. *)
Definition rel_of `{Host} (path : list string) : string :=
  match filepath.Rel path with
  | Ok r => r
  | Error _ => EmptyString
  end.

(** The paths [Walk] calls its function on, in order, with their nodes. *)
Fixpoint visits (path : list string) (n : fnode) : list (list string * fnode) :=
  (path, n) ::
  match n with
  | Dir entries =>
      (fix each (es : list (string * fnode)) : list (list string * fnode) :=
         match es with
         | [] => []
         | (name, child) :: es' => app (visits (app path [name]) child) (each es')
         end) entries
  | _ => []
  end.



(** The charset a renderer announces. *)
Definition charset_of (charset : string) : string :=
  match charset with
  | EmptyString => defaultCharset
  | _ => charset
  end.

(** The four rendering calls, to speak of them together. *)
Inductive call : Type :=
| CallJSON (status : Z) (v : value)
| CallXML (status : Z) (v : value)
| CallHTML (fuel : nat) (status : Z) (name : string) (binding : value)
    (htmlOpt : list HTMLOptions)
| CallTEXT (fuel : nat) (status : Z) (name : string) (binding : value)
    (htmlOpt : list HTMLOptions).

Definition perform `{Host} (r : renderer) (c : call) : M world unit :=
  match c with
  | CallJSON status v => JSON r status v
  | CallXML status v => XML r status v
  | CallHTML fuel status name binding htmlOpt =>
      HTML fuel r status name binding htmlOpt
  | CallTEXT fuel status name binding htmlOpt =>
      TEXT fuel r status name binding htmlOpt
  end.

(** A call succeeds when its encoder, or the execution of its template,
    returns no error. *)
Definition succeeds `{Host} (r : renderer) (c : call) (w : world) : bool :=
  match c with
  | CallJSON _ v =>
      match json_encode r w v with Ok _ => true | Error _ => false end
  | CallXML _ v =>
      match xml_encode r w v with Ok _ => true | Error _ => false end
  | CallHTML fuel _ name binding htmlOpt =>
      match HTML_render fuel r name binding htmlOpt w with
      | Done ((_, None), _) => true
      | _ => false
      end
  | CallTEXT fuel _ name binding htmlOpt =>
      match TEXT_render fuel r name binding htmlOpt w with
      | Done ((_, None), _) => true
      | _ => false
      end
  end.

Definition media_type (r : renderer) (c : call) : string :=
  match c with
  | CallJSON _ _ => ContentJSON
  | CallXML _ _ => ContentXML
  | CallHTML _ _ _ _ _ => HTMLContentType (opt r)
  | CallTEXT _ _ _ _ _ => HTMLContentType (opt r)
  end.

(** Execution of a template touches nothing but the pool, from which it
    only takes. *)
Definition takes_buffers_only (w w' : world) : Prop :=
  res w' = res w /\ r_ht w' = r_ht w /\ r_tt w' = r_tt w
  /\ store w' = store w /\ stdout w' = stdout w
  /\ puts (bufpool w') = puts (bufpool w)
  /\ (gets (bufpool w) <= gets (bufpool w'))%nat.

(** What the walk function does to the two sets at one visited path. *)
Definition step `{Host} (options : Options) (st : tmplset * tmplset)
    (v : list string * fnode) : outcome (tmplset * tmplset) :=
  match walkFn options (fst v) (snd v) None st with
  | Done (_, st') => Done st'
  | Panic msg => Panic msg
  | OutOfFuel => OutOfFuel
  end.

Fixpoint run_visits `{Host} (options : Options)
    (l : list (list string * fnode)) (st : tmplset * tmplset)
    : outcome (tmplset * tmplset) :=
  match l with
  | [] => Done st
  | v :: l' =>
      match step options st v with
      | Done st' => run_visits options l' st'
      | Panic msg => Panic msg
      | OutOfFuel => OutOfFuel
      end
  end.

(** Registering one text in one set: the user's helpers, then the
    placeholders, then the parse. *)
Definition reg_tree `{Host} (user : list (gmap string helper))
    (helpers : gmap string helper) (name text : string) (t : tmplset)
    : result tmplset :=
  Template.ParseNamed name text (Template.Funcs helpers (apply_funcs user t)).



(** A call that leaves everything but the response as it was. *)
Definition only_response (w w' : world) : Prop :=
  r_ht w' = r_ht w /\ r_tt w' = r_tt w /\ bufpool w' = bufpool w
  /\ store w' = store w /\ stdout w' = stdout w.

(** The name of the template a call executes: the layout when there is
    one, the name it was given otherwise. *)
Definition executed_name (r : renderer) (name : string)
    (htmlOpt : list HTMLOptions) : string :=
  if Nat.ltb 0 (String.length (HLayout (prepareHTMLOptions r htmlOpt)))
  then HLayout (prepareHTMLOptions r htmlOpt)
  else name.

(** The map store after the extra pairs were written for a binding. *)
Definition store_after_merge (extra : gmap string string) (binding : value)
    (st : gmap loc (gmap string value)) : gmap loc (gmap string value) :=
  match binding with
  | VMap l => alter (merge_extra extra) l st
  | _ => st
  end.




(** Status codes [WriteHeader] accepts. *)
Definition valid_status (c : Z) : Prop := 100 <= c <= 999.

(** A request-time world with the trees of [layout_fs] and a response on
    which Content-Type was set beforehand. *)
Definition typed_world : world :=
  with_res (http.HeaderSet ContentType "image/png") layout_world.

Definition two_buffers_world : world :=
  with_bufpool (fun p => bpool.Get (bpool.Get p)) layout_world.




(** The world in which [HTML] executes its template: the helpers rebound
    for a layout, the extra pairs written, the binding printed. *)
Definition before_execute `{Host} (r : renderer) (name : string)
    (binding : value) (htmlOpt : list HTMLOptions) (w : world) : world :=
  let o := prepareHTMLOptions r htmlOpt in
  let w1 := if Nat.ltb 0 (String.length (HLayout o))
            then with_ht (Template.Funcs (yieldHtmlFuncs name binding)) w
            else w in
  let w2 := match binding with
            | VMap l => with_store (alter (merge_extra (HExtra o)) l) w1
            | _ => w1
            end in
  match json_MarshalIndent (store w2) binding EmptyString " " with
  | Ok b => with_stdout (fun out => out ++ b ++ newline) w2
  | Error _ => w2
  end.

(** A host whose path separator is the backslash. *)
Definition backslash : ascii := ascii_of_nat 92.

Definition backslash_host : Host :=
  {| Separator := backslash;
     json_Marshal := sample_json;
     json_MarshalIndent := fun st v _ _ => sample_json st v;
     xml_Marshal := sample_xml;
     xml_MarshalIndent := fun st v _ _ => sample_xml st v;
     http_Redirect := fun rs _ location c =>
       http.WriteHeader c (http.HeaderSet "Location" location rs) |}.

(** A template directory with a subdirectory. *)
Definition nested_fs : fnode :=
  Dir [("admin", Dir [("index.tmpl", File (Ok "admin"))]);
       ("notes.txt", File (Ok "not a template"))].

(** A template directory without template files. *)
Definition no_template_fs : fnode :=
  Dir [("README", File (Ok "read me")); ("notes.txt", File (Error "denied"))].


(** * Properties *)

(** ** Strings and [getExt] *)

Lemma IndexNat_Index_none (s : string) (c : ascii) :
  Z.eqb (strings.Index s c) (-1) = true <-> strings.IndexNat s c = None.
Proof.
  unfold strings.Index. destruct (strings.IndexNat s c) as [n|].
  - split; [|discriminate]. intros E. apply Z.eqb_eq in E. lia.
  - split; reflexivity.
Qed.

Lemma Split_not_nil (s : string) (c : ascii) : strings.Split s c <> [].
Proof.
  destruct s as [|a s]; simpl; [discriminate|].
  destruct (Ascii.eqb a c); [discriminate|].
  destruct (strings.Split s c); discriminate.
Qed.

Lemma Join_cons (x : string) (xs : list string) (sep : string) :
  xs <> [] -> strings.Join (x :: xs) sep = x ++ sep ++ strings.Join xs sep.
Proof. destruct xs; [congruence | reflexivity]. Qed.

Lemma Join_Split (s : string) (c : ascii) :
  strings.Join (strings.Split s c) (String c EmptyString) = s.
Proof.
  induction s as [|a s IH]; [reflexivity|].
  simpl strings.Split. destruct (Ascii.eqb_spec a c) as [->|Hne].
  - rewrite Join_cons by apply Split_not_nil. simpl. now rewrite IH.
  - pose proof (Split_not_nil s c) as Hnil.
    destruct (strings.Split s c) as [|p ps]; [congruence|].
    destruct ps as [|q qs].
    + simpl in *. now rewrite IH.
    + rewrite Join_cons by discriminate.
      rewrite Join_cons in IH by discriminate.
      rewrite <- IH. reflexivity.
Qed.

(** [getExt s] is what follows the part of [s] before its first dot. *)
Lemma getExt_stem (s : string) : s = stem s ++ getExt s.
Proof.
  unfold stem, getExt. induction s as [|a s IH]; [reflexivity|].
  unfold strings.Index in *. simpl strings.IndexNat. simpl strings.Split.
  destruct (Ascii.eqb_spec a dot) as [->|Hne].
  - simpl. now rewrite Join_Split.
  - pose proof (Split_not_nil s dot) as Hnil.
    destruct (strings.Split s dot) as [|p ps]; [congruence|].
    destruct (strings.IndexNat s dot) as [n|]; simpl in *.
    + replace (Z.pos (Pos.of_succ_nat n) =? -1) with false
        by (symmetry; apply Z.eqb_neq; lia).
      destruct (Z.of_nat n =? -1) eqn:E; [apply Z.eqb_eq in E; lia|].
      now rewrite IH at 1.
    + now rewrite IH at 1.
Qed.

Lemma stem_no_dot (s : string) : strings.IndexNat (stem s) dot = None.
Proof.
  unfold stem. induction s as [|a s IH]; [reflexivity|].
  simpl strings.Split. destruct (Ascii.eqb_spec a dot) as [->|Hne]; [reflexivity|].
  pose proof (Split_not_nil s dot) as Hnil.
  destruct (strings.Split s dot) as [|p ps]; [congruence|].
  simpl in *. destruct (Ascii.eqb_spec a dot); [congruence|]. now rewrite IH.
Qed.

Lemma substring_prefix (a b : string) :
  String.substring 0 (String.length a) (a ++ b) = a.
Proof.
  induction a as [|c a IH]; simpl.
  - now destruct b.
  - now rewrite IH.
Qed.

Lemma append_length (a b : string) :
  String.length (a ++ b) = (String.length a + String.length b)%nat.
Proof. induction a as [|c a IH]; simpl; [reflexivity | now rewrite IH]. Qed.

(** The slice [r[0 : len(r)-len(ext)]] is the part before the first dot;
    its bounds are always in range. *)
Lemma slice_stem (r : string) :
  slice_to r (String.length r - String.length (getExt r)) = stem r
  /\ (String.length (getExt r) <= String.length r)%nat.
Proof.
  pose proof (getExt_stem r) as E. unfold slice_to.
  assert (L : String.length r
              = (String.length (stem r) + String.length (getExt r))%nat)
    by (rewrite <- append_length; now rewrite <- E).
  split; [|lia].
  replace (String.length r - String.length (getExt r))%nat
    with (String.length (stem r)) by lia.
  revert E. generalize (stem r) (getExt r). intros a b ->.
  apply substring_prefix.
Qed.

Example getExt_plain : getExt "index.tmpl" = ".tmpl".
Proof. reflexivity. Qed.

Example getExt_two_dots : getExt "page.html.tmpl" = ".html.tmpl".
Proof. reflexivity. Qed.

Example getExt_none : getExt "README" = EmptyString.
Proof. reflexivity. Qed.

Example getExt_root : getExt "." = ".".
Proof. reflexivity. Qed.

Example getExt_dotted_dir : getExt "v1.0/x.tmpl" = ".0/x.tmpl".
Proof. reflexivity. Qed.

(** ** The response writer *)

Lemma headers_WriteHeader (c : Z) (rs : response) :
  headers (http.WriteHeader c rs) = headers rs.
Proof. unfold http.WriteHeader. now destruct (code rs). Qed.

Lemma headers_Write (b : string) (rs : response) :
  headers (http.Write b rs) = headers rs.
Proof. unfold http.Write. simpl. apply headers_WriteHeader. Qed.

Lemma headers_io_Copy (b : string) (rs : response) :
  headers (io_Copy b rs) = headers rs.
Proof. destruct b; [reflexivity | apply headers_Write]. Qed.

Lemma code_Write (b : string) (rs : response) :
  code (http.Write b rs) = Some (default 200 (code rs)).
Proof.
  unfold http.Write, http.WriteHeader.
  destruct (code rs) eqn:E; simpl; rewrite ?E; reflexivity.
Qed.

Lemma body_Write (b : string) (rs : response) :
  body (http.Write b rs) = body rs ++ b.
Proof. unfold http.Write, http.WriteHeader. now destruct (code rs). Qed.




(** What [http.Error] leaves on a response nothing was written to. *)
Lemma http_Error_fresh (e : string) (c : Z) (rs : response) :
  code rs = None -> body rs = EmptyString ->
  code (http.Error e c rs) = Some c
  /\ body (http.Error e c rs) = e ++ newline
  /\ headers (http.Error e c rs) !! ContentType
     = Some ["text/plain; charset=utf-8"].
Proof.
  intros Hc Hb. unfold http.Error, http.Write, http.WriteHeader. simpl.
  rewrite Hc. simpl. rewrite Hb. repeat split.
  rewrite lookup_insert_ne by discriminate. apply lookup_insert_eq.
Qed.

(** ** [prepareCharset] *)

Lemma prepareCharset_form (cs : string) :
  prepareCharset cs = "; charset=" ++ charset_of cs.
Proof. now destruct cs. Qed.

(** ** [Redirect] *)

(** C9. [Redirect] with no status argument hands [http.Redirect] the
    location and the status 302 (Found); with exactly one status argument
    it hands it the location and that status. *)
Theorem Redirect_status `{Host} (r : renderer) (location : string) (w : world) :
  Redirect r location [] w
  = Done (tt, with_res (fun rs => http_Redirect rs (req r) location 302) w)
  /\ forall c : Z,
       Redirect r location [c] w
       = Done (tt, with_res (fun rs => http_Redirect rs (req r) location c) w).
Proof. split; [|intros c]; reflexivity. Qed.

(** ** [JSON] and [XML] *)

(** C5. When the value encodes without error, [JSON(200, v)] on a response
    nothing was written to sets Content-Type to application/json followed
    by the charset suffix, writes status 200, and the body is the
    configured prefix followed by the encoding: the indented one when
    [IndentJSON] is set, the compact one otherwise. *)
Theorem JSON_success `{Host} (r : renderer) (v : value) (w : world) (enc : string) :
  json_encode r w v = Ok enc ->
  code (res w) = None ->
  body (res w) = EmptyString ->
  exists w',
    JSON r 200 v w = Done (tt, w')
    /\ headers (res w') !! ContentType = Some [ContentJSON ++ compiledCharset r]
    /\ code (res w') = Some 200
    /\ body (res w') = PrefixJSON (opt r) ++ enc
    /\ (IndentJSON (opt r) = true ->
        json_MarshalIndent (store w) v EmptyString "  " = Ok enc)
    /\ (IndentJSON (opt r) = false -> json_Marshal (store w) v = Ok enc).
Proof.
  intros Henc Hc Hb. unfold JSON, bind, get, modify, ret. rewrite Henc.
  unfold json_encode in Henc.
  destruct (PrefixJSON (opt r)) as [|a pre] eqn:Hp; simpl;
    (eexists; split; [reflexivity|]); simpl;
    rewrite ?headers_Write, ?headers_WriteHeader, ?code_Write, ?body_Write;
    unfold http.WriteHeader; simpl; rewrite Hc; simpl; rewrite Hb; simpl;
    (split; [apply lookup_insert_eq|]); (split; [reflexivity|]);
    (split; [reflexivity|]);
    split; intros Hi; rewrite Hi in Henc; exact Henc.
Qed.

Lemma JSON_success_witness :
  exists w',
    @JSON sample_host sample_renderer 200 (VString "hello") empty_world
    = Done (tt, w')
    /\ headers (res w') !! ContentType
       = Some [ContentJSON ++ compiledCharset sample_renderer]
    /\ code (res w') = Some 200
    /\ body (res w') = PrefixJSON (opt sample_renderer) ++ (quote ++ "hello" ++ quote)
    /\ (IndentJSON (opt sample_renderer) = true ->
        @json_MarshalIndent sample_host (store empty_world) (VString "hello")
          EmptyString "  " = Ok (quote ++ "hello" ++ quote))
    /\ (IndentJSON (opt sample_renderer) = false ->
        @json_Marshal sample_host (store empty_world) (VString "hello")
        = Ok (quote ++ "hello" ++ quote)).
Proof.
  apply (@JSON_success sample_host sample_renderer (VString "hello") empty_world
           (quote ++ "hello" ++ quote)); reflexivity.
Defined.




(** ** The charset in Content-Type *)

Lemma Renderer_handler `{Host} (options : list Options) (fs fs' : fnode)
    (m : middleware) (p : pool) (dev : bool) (rq : request)
    (w0 w1 : world) (r : renderer) :
  Renderer options fs = Done (m, p) ->
  handler m dev fs' rq w0 = Done (r, w1) ->
  opt r = prepareOptions options
  /\ compiledCharset r = prepareCharset (Charset (prepareOptions options)).
Proof.
  unfold Renderer, handler. intros HR Hh.
  destruct (compile (prepareOptions options) fs) as [[ht tt']| |]; try discriminate.
  injection HR as <- <-. simpl in Hh.
  destruct dev.
  - destruct (compile (prepareOptions options) fs') as [[htc ttc]| |];
      try discriminate.
    injection Hh as <- <-. split; reflexivity.
  - injection Hh as <- <-. split; reflexivity.
Qed.

Lemma finish_sets_content_type (r : renderer) (status : Z) (buf : string)
    (w : world) :
  exists w',
    (modify (with_res (http.HeaderSet ContentType
                         (HTMLContentType (opt r) ++ compiledCharset r))) ;;
     modify (with_res (http.WriteHeader status)) ;;
     modify (with_res (io_Copy buf)) ;;
     modify (with_bufpool bpool.Put)) w = Done (tt, w')
    /\ headers (res w') !! ContentType
       = Some [HTMLContentType (opt r) ++ compiledCharset r].
Proof.
  eexists. split; [reflexivity|]. simpl.
  rewrite headers_io_Copy, headers_WriteHeader. apply lookup_insert_eq.
Qed.

(** C10. [prepareCharset] returns the non-empty suffix [; charset=c], where
    [c] is the configured charset when non-empty and UTF-8 otherwise; and
    for a renderer built by the middleware from any options, every
    successful [JSON], [XML], [HTML] and [TEXT] call leaves a Content-Type
    made of the media type followed by that suffix. *)
Theorem content_type_has_charset `{Host} (options : list Options)
    (fs fs' : fnode) (m : middleware) (p : pool) (dev : bool) (rq : request)
    (w0 w1 : world) (r : renderer) (c : call) (w : world) :
  Renderer options fs = Done (m, p) ->
  handler m dev fs' rq w0 = Done (r, w1) ->
  succeeds r c w = true ->
  (forall cs : string,
      prepareCharset cs = "; charset=" ++ charset_of cs
      /\ prepareCharset cs <> EmptyString
      /\ charset_of cs <> EmptyString
      /\ (cs <> EmptyString -> charset_of cs = cs)
      /\ (cs = EmptyString -> charset_of cs = "UTF-8"))
  /\ exists w',
       perform r c w = Done (tt, w')
       /\ headers (res w') !! ContentType
          = Some [media_type r c ++ "; charset="
                  ++ charset_of (Charset (prepareOptions options))].
Proof.
  intros HR Hh Hs. split.
  - intros cs. destruct cs; repeat split; try discriminate; congruence.
  - destruct (Renderer_handler _ _ _ _ _ _ _ _ _ _ HR Hh) as [Ho Hcs].
    rewrite <- prepareCharset_form, <- Hcs. clear HR Hh Ho Hcs.
    destruct c as [status v|status v|fuel status name binding htmlOpt
                  |fuel status name binding htmlOpt]; simpl in Hs |- *.
    + destruct (json_encode r w v) as [enc|e] eqn:E; [|discriminate].
      unfold JSON, bind, get, modify, ret. rewrite E.
      destruct (Nat.ltb 0 (String.length (PrefixJSON (opt r))));
        (eexists; split; [reflexivity|]); simpl;
        repeat (rewrite headers_Write || rewrite headers_WriteHeader);
        apply lookup_insert_eq.
    + destruct (xml_encode r w v) as [enc|e] eqn:E; [|discriminate].
      unfold XML, bind, get, modify, ret. rewrite E.
      destruct (Nat.ltb 0 (String.length (PrefixXML (opt r))));
        (eexists; split; [reflexivity|]); simpl;
        repeat (rewrite headers_Write || rewrite headers_WriteHeader);
        apply lookup_insert_eq.
    + unfold HTML. unfold bind at 1.
      destruct (HTML_render fuel r name binding htmlOpt w)
        as [[[buf [e|]] w2]| |]; try discriminate.
      simpl. apply finish_sets_content_type.
    + unfold TEXT. unfold bind at 1.
      destruct (TEXT_render fuel r name binding htmlOpt w)
        as [[[buf [e|]] w2]| |]; try discriminate.
      simpl. apply finish_sets_content_type.
Qed.

Lemma content_type_has_charset_witness :
  (forall cs : string,
      prepareCharset cs = "; charset=" ++ charset_of cs
      /\ prepareCharset cs <> EmptyString
      /\ charset_of cs <> EmptyString
      /\ (cs <> EmptyString -> charset_of cs = cs)
      /\ (cs = EmptyString -> charset_of cs = "UTF-8"))
  /\ exists w',
       @perform sample_host sample_renderer (CallHTML 3 200 "content" VNil [])
         layout_world = Done (tt, w')
       /\ headers (res w') !! ContentType
          = Some [media_type sample_renderer (CallHTML 3 200 "content" VNil [])
                  ++ "; charset=" ++ charset_of (Charset (prepareOptions []))].
Proof.
  apply (@content_type_has_charset sample_host [] layout_fs layout_fs
           sample_middleware (bpool.NewBufferPool 64) false sample_request
           empty_world layout_world sample_renderer
           (CallHTML 3 200 "content" VNil []) layout_world);
    vm_compute; reflexivity.
Defined.

(** ** Template execution only takes buffers *)

Lemma takes_buffers_only_refl (w : world) : takes_buffers_only w w.
Proof. unfold takes_buffers_only. repeat split; lia. Qed.

Lemma takes_buffers_only_trans (w1 w2 w3 : world) :
  takes_buffers_only w1 w2 -> takes_buffers_only w2 w3 ->
  takes_buffers_only w1 w3.
Proof.
  unfold takes_buffers_only.
  intros (A1 & A2 & A3 & A4 & A5 & A6 & A7) (B1 & B2 & B3 & B4 & B5 & B6 & B7).
  repeat split; try congruence; lia.
Qed.

Lemma call_helper_frame
    (exec : kind -> string -> value -> M world (string * option string))
    (Hexec : forall k n b w x w',
        exec k n b w = Done (x, w') -> takes_buffers_only w w')
    (h : helper) (w : world) (x : tval * option string) (w' : world) :
  call_helper exec h w = Done (x, w') -> takes_buffers_only w w'.
Proof.
  destruct h as [| |n b|n b|n|[v|e]]; simpl; unfold bind, ret;
    try (intros [= <- <-]; apply takes_buffers_only_refl).
  - destruct (exec Escaping n b w) as [[y w2]| |] eqn:E; try discriminate.
    intros [= <- <-]. eapply Hexec, E.
  - destruct (exec Plain n b w) as [[y w2]| |] eqn:E; try discriminate.
    intros [= <- <-]. eapply Hexec, E.
Qed.

Lemma run_nodes_frame
    (exec : kind -> string -> value -> M world (string * option string))
    (Hexec : forall k n b w x w',
        exec k n b w = Done (x, w') -> takes_buffers_only w w')
    (k : kind) (ns : list node) :
  forall (buf : string) (w : world) (x : string * option string) (w' : world),
    run_nodes exec k ns buf w = Done (x, w') -> takes_buffers_only w w'.
Proof.
  induction ns as [|[s|f] ns IH]; intros buf w x w'; simpl.
  - intros [= <- <-]. apply takes_buffers_only_refl.
  - apply IH.
  - unfold bind, get, ret.
    destruct (funcs (tree_of k w) !! f) as [h|]; simpl.
    + destruct (call_helper exec h w) as [[[v [e|]] w2]| |] eqn:E;
        simpl; try discriminate.
      * intros [= <- <-]. eapply call_helper_frame; eauto.
      * intros Hrun. eapply takes_buffers_only_trans.
        -- eapply call_helper_frame; eauto.
        -- eapply IH, Hrun.
    + intros [= <- <-]. apply takes_buffers_only_refl.
Qed.

Lemma execute_frame (fuel : nat) :
  forall (k : kind) (name : string) (binding : value) (w : world)
         (x : string * option string) (w' : world),
    execute fuel k name binding w = Done (x, w') ->
    takes_buffers_only w w'
    /\ (gets (bufpool w) < gets (bufpool w'))%nat.
Proof.
  induction fuel as [|fuel IH]; intros k name binding w x w'; simpl;
    [discriminate|].
  unfold ExecuteTemplate, bind, modify, get, ret. simpl.
  set (w1 := with_bufpool bpool.Get w).
  assert (Hw1 : takes_buffers_only w w1
                /\ (gets (bufpool w) < gets (bufpool w1))%nat).
  { unfold takes_buffers_only, w1. simpl. repeat split; lia. }
  destruct (tmpls (tree_of k w1) !! name) as [ns|].
  - intros Hrun.
    assert (takes_buffers_only w1 w') as Hf.
    { eapply run_nodes_frame; [|exact Hrun].
      intros k0 n0 b0 w0 x0 w0' E. now apply IH in E. }
    split; [eapply takes_buffers_only_trans; [apply Hw1 | exact Hf]|].
    destruct Hf as (_ & _ & _ & _ & _ & _ & Hg). lia.
  - intros [= <- <-]. exact Hw1.
Qed.

(** ** The extra pairs and the caller's map *)


(** The store after [HTML]: only the map the binding points to is
    written. *)
Lemma HTML_store `{Host} (fuel : nat) (r : renderer) (status : Z)
    (name : string) (binding : value) (htmlOpt : list HTMLOptions)
    (w w' : world) :
  HTML fuel r status name binding htmlOpt w = Done (tt, w') ->
  store w'
  = match binding with
    | VMap l =>
        alter (merge_extra (HExtra (prepareHTMLOptions r htmlOpt))) l (store w)
    | _ => store w
    end.
Proof.
  unfold HTML, HTML_render, executeHtml, addYieldHtml, merge_into_binding,
    Println, http_Error.
  set (o := prepareHTMLOptions r htmlOpt).
  unfold bind, get, ret, modify, panic.
  destruct (Nat.ltb 0 (String.length (HLayout o)));
    destruct binding as [|s|l| |tag]; simpl;
    try (destruct (map_to_list (HExtra o)) as [|kv kvs]; [|discriminate]);
    match goal with
    | |- context [json_MarshalIndent ?a ?b ?c ?d] =>
        destruct (json_MarshalIndent a b c d) as [js|je]
    end; simpl;
    match goal with
    | |- context [execute ?f ?k ?n ?b ?w0] =>
        destruct (execute f k n b w0) as [[[buf [e|]] w2]| |] eqn:E
    end; simpl; try discriminate;
    intros [= <-]; apply execute_frame in E;
    destruct E as ((_ & _ & _ & Hst & _) & _); simpl; exact Hst.
Qed.





(** ** Layouts: [yield] and [current] *)

Lemma yieldHtmlFuncs_yield (name : string) (binding : value)
    (fs : gmap string helper) :
  (yieldHtmlFuncs name binding ∪ fs) !! "yield" = Some (HYieldHtml name binding).
Proof. apply lookup_union_Some_l. apply lookup_insert_eq. Qed.

Lemma yieldHtmlFuncs_current (name : string) (binding : value)
    (fs : gmap string helper) :
  (yieldHtmlFuncs name binding ∪ fs) !! "current" = Some (HCurrent name).
Proof.
  apply lookup_union_Some_l. unfold yieldHtmlFuncs.
  rewrite lookup_insert_ne by discriminate. apply lookup_insert_eq.
Qed.





(** Which table [TEXT] rebinds: the plain tree is left as it was, the
    closures go to the escaping tree. *)
Lemma TEXT_render_layout (fuel : nat) (r : renderer) (name : string)
    (binding : value) (o : HTMLOptions) (rest : list HTMLOptions)
    (w w' : world) (be : string * option string) :
  (0 < String.length (HLayout o))%nat ->
  TEXT_render fuel r name binding (o :: rest) w = Done (be, w') ->
  r_tt w' = r_tt w
  /\ funcs (r_ht w') = yieldTextFuncs name binding ∪ funcs (r_ht w).
Proof.
  intros Hlay. unfold TEXT_render, executeText, addYieldText.
  simpl prepareHTMLOptions. apply Nat.ltb_lt in Hlay. rewrite Hlay.
  unfold bind, get, ret, modify. simpl.
  intros E. apply execute_frame in E.
  destruct E as ((_ & Hht & Htt & _) & _). rewrite Hht, Htt.
  split; reflexivity.
Qed.

(** C1 at a failing input.  The plain tree holds the layout [L[{{yield}}]]
    and the content [hi]; [TEXT(200, content, nil, {Layout: L})] leaves
    [yield] and [current] of the plain tree on their placeholders, binds
    the closures in the escaping tree, and answers 500. *)
Theorem TEXT_layout_yield_not_rebound :
  tmpls (r_tt layout_world) !! "L" = Some [NText "L["; NCall "yield"; NText "]"]
  /\ tmpls (r_tt layout_world) !! "content" = Some [NText "hi"]
  /\ exists w',
       TEXT 3 sample_renderer 200 "content" VNil [layout_L] layout_world
       = Done (tt, w')
       /\ funcs (r_tt w') !! "yield" = Some HYieldNone
       /\ funcs (r_tt w') !! "current" = Some HCurrentNone
       /\ funcs (r_ht w') !! "yield" = Some (HYieldText "content" VNil)
       /\ funcs (r_ht w') !! "current" = Some (HCurrent "content")
       /\ code (res w') = Some 500
       /\ body (res w') <> "L[hi]".
Proof.
  split; [vm_compute; reflexivity|]. split; [vm_compute; reflexivity|].
  eexists. split; [vm_compute; reflexivity|].
  repeat split; try (vm_compute; reflexivity).
  vm_compute. discriminate.
Qed.

(** ** The pool *)

(** On the error path of [HTML] no buffer is put back. *)
Lemma HTML_error_path_pool `{Host} (fuel : nat) (r : renderer) (status : Z)
    (name : string) (binding : value) (htmlOpt : list HTMLOptions)
    (w w2 : world) (buf e : string) :
  HTML_render fuel r name binding htmlOpt w = Done ((buf, Some e), w2) ->
  exists w',
    HTML fuel r status name binding htmlOpt w = Done (tt, w')
    /\ bufpool w' = bufpool w2.
Proof.
  intros E. unfold HTML. unfold bind at 1. rewrite E. simpl.
  eexists. split; reflexivity.
Qed.

(** C2 at failing inputs.  [HTML] on a name with no template answers 500
    and the buffer it took is not put back; a layout render puts back one
    of the two buffers taken, the one taken by [yield] stays out; [TEXT]
    on a name with no template behaves like [HTML]. *)
Theorem buffers_not_returned :
  (exists w',
      @HTML sample_host 3 sample_renderer 200 "nope" VNil [] layout_world
      = Done (tt, w')
      /\ code (res w') = Some 500
      /\ gets (bufpool w') = 1%nat
      /\ puts (bufpool w') = 0%nat
      /\ bpool.outstanding (bufpool w') = 1%nat)
  /\ (exists w',
         @HTML sample_host 3 sample_renderer 200 "content" VNil [layout_L]
           layout_world = Done (tt, w')
         /\ body (res w') = "L[hi]"
         /\ gets (bufpool w') = 2%nat
         /\ puts (bufpool w') = 1%nat
         /\ bpool.outstanding (bufpool w') = 1%nat)
  /\ (exists w',
         TEXT 3 sample_renderer 200 "nope" VNil [] layout_world = Done (tt, w')
         /\ code (res w') = Some 500
         /\ gets (bufpool w') = 1%nat
         /\ puts (bufpool w') = 0%nat
         /\ bpool.outstanding (bufpool w') = 1%nat).
Proof.
  split; [|split]; eexists; (split; [vm_compute; reflexivity|]);
    repeat split; vm_compute; reflexivity.
Qed.

(** ** The walk *)

Lemma fnode_induction (P : fnode -> Prop) :
  (forall data, P (File data)) ->
  (forall entries, Forall (fun e => P (snd e)) entries -> P (Dir entries)) ->
  (forall e, P (DirNoList e)) ->
  (forall e, P (NoStat e)) ->
  forall n, P n.
Proof.
  intros HF HD HL HN. fix IH 1. intros [data|entries|e|e].
  - apply HF.
  - apply HD. induction entries as [|[name child] es IHes];
      constructor; [apply IH | exact IHes].
  - apply HL.
  - apply HN.
Qed.

Lemma range_extensions_spec {S : Type} (ext : string) (extensions : list string)
    (body : M S unit) :
  range_extensions ext extensions body
  = if existsb (String.eqb ext) extensions then body else ret tt.
Proof.
  induction extensions as [|x xs IH]; simpl; [reflexivity|].
  destruct (String.eqb ext x); [reflexivity | exact IH].
Qed.

(** One visit: nothing happens unless the extension is configured; then
    the node is read and its text registered in both sets. *)
Lemma step_spec `{Host} (o : Options) (st : tmplset * tmplset)
    (path : list string) (n : fnode) :
  step o st (path, n)
  = if configured o (rel_of path) then
      match ReadFile n with
      | Error e => Panic e
      | Ok buf =>
          match reg_tree (HtmlFuncs o) htmlhelperFuncs
                  (template_name (rel_of path)) buf (fst st) with
          | Error e => Panic e
          | Ok ht =>
              match reg_tree (TextFuncs o) texthelperFuncs
                      (template_name (rel_of path)) buf (snd st) with
              | Error e => Panic e
              | Ok tt' => Done (ht, tt')
              end
          end
      end
    else Done st.
Proof.
  unfold step, walkFn, rel_of, configured. cbn [fst snd].
  assert (HR : exists r, filepath.Rel path = Ok r)
    by (destruct path; simpl; eauto).
  destruct HR as [r HR]. rewrite HR. cbv beta iota.
  rewrite range_extensions_spec. unfold bind at 1.
  destruct (existsb (String.eqb (getExt r)) (Extensions o)); [|reflexivity].
  unfold register, reg_tree, template_name.
  destruct (ReadFile n) as [buf|e]; [|reflexivity].
  unfold bind, get, put, Must, ret, panic. simpl.
  destruct (Template.ParseNamed _ buf (Template.Funcs htmlhelperFuncs _))
    as [ht|e]; [|reflexivity].
  destruct (Template.ParseNamed _ buf (Template.Funcs texthelperFuncs _))
    as [tt'|e]; reflexivity.
Qed.

(** The error [Walk] hands over plays no part, and the walk function
    never asks [Walk] to stop. *)
Lemma walkFn_step `{Host} (o : Options) (path : list string) (n : fnode)
    (err : option string) (st : tmplset * tmplset) :
  walkFn o path n err st
  = match step o st (path, n) with
    | Done st' => Done (None, st')
    | Panic msg => Panic msg
    | OutOfFuel => OutOfFuel
    end.
Proof.
  unfold step, walkFn. cbn [fst snd].
  destruct (filepath.Rel path) as [r|e] eqn:HR.
  - unfold bind, ret.
    destruct (range_extensions _ _ _ st) as [[u st']| |]; reflexivity.
  - destruct path; discriminate.
Qed.

Lemma run_visits_app `{Host} (o : Options) (l1 l2 : list (list string * fnode))
    (st : tmplset * tmplset) :
  run_visits o (app l1 l2) st
  = match run_visits o l1 st with
    | Done st' => run_visits o l2 st'
    | Panic msg => Panic msg
    | OutOfFuel => OutOfFuel
    end.
Proof.
  revert st. induction l1 as [|v l1 IH]; intros st; simpl; [reflexivity|].
  destruct (step o st v) as [st'| |]; [apply IH | reflexivity | reflexivity].
Qed.

(** [Walk] with the walk function of [compile] is the run of the visits in
    order. *)
Lemma walk_run_visits `{Host} (o : Options) (n : fnode) :
  forall (path : list string) (st : tmplset * tmplset),
    filepath.walk (walkFn o) path n st
    = match run_visits o (visits path n) st with
      | Done st' => Done (None, st')
      | Panic msg => Panic msg
      | OutOfFuel => OutOfFuel
      end.
Proof.
  induction n as [data|entries IH|e|e] using fnode_induction; intros path st;
    simpl; try (rewrite walkFn_step; destruct (step o st _); reflexivity).
  unfold bind at 1. rewrite walkFn_step.
  destruct (step o st (path, Dir entries)) as [st1| |]; try reflexivity.
  unfold ret. clear st. revert st1.
  induction IH as [|[name child] es Hc Hes IHes]; intros st1; [reflexivity|].
  simpl in Hc. unfold bind at 1. rewrite Hc. rewrite run_visits_app.
  destruct (run_visits o (visits (app path [name]) child) st1) as [st2| |];
    try reflexivity.
  apply IHes.
Qed.

Lemma compile_run_visits `{Host} (o : Options) (fs : fnode) :
  compile o fs
  = match placeholder o with
    | Error e => Panic e
    | Ok t => run_visits o (visits [] fs) (t, t)
    end.
Proof.
  unfold compile, filepath.Walk.
  destruct (placeholder o) as [t|e]; [|reflexivity].
  rewrite walk_run_visits.
  destruct (run_visits o (visits [] fs) (t, t)); reflexivity.
Qed.

(** ** Walk errors *)




Lemma placeholder_only (o : Options) (t : tmplset) :
  placeholder o = Ok t -> exists ns, tmpls t = {[ Directory o := ns ]}.
Proof.
  unfold placeholder, Template.ParseNamed. simpl.
  destruct (parse _ _ _ "Martini") as [ns|e]; [|discriminate].
  rewrite lookup_empty. intros [= <-]. exists ns. simpl.
  apply insert_empty.
Qed.




(** ** What [compile] registers *)















Lemma template_name_stem `{Host} (r : string) :
  template_name r = filepath.ToSlash (stem r).
Proof. unfold template_name. now rewrite (proj1 (slice_stem r)). Qed.




(** ** Fuel

    A result reached with some fuel is reached with more: fuel only cuts
    off a [yield] recursion that has not ended yet. *)

Lemma call_helper_mono
    (exec1 exec2 : kind -> string -> value -> M world (string * option string))
    (Hexec : forall k n b w x, exec1 k n b w = Done x -> exec2 k n b w = Done x)
    (h : helper) (w : world) (x : (tval * option string) * world) :
  call_helper exec1 h w = Done x -> call_helper exec2 h w = Done x.
Proof.
  destruct h as [| |n b|n b|n|[v|e]]; simpl; unfold bind; try (intros E; exact E).
  - destruct (exec1 Escaping n b w) as [y| |] eqn:E; try discriminate.
    now rewrite (Hexec _ _ _ _ _ E).
  - destruct (exec1 Plain n b w) as [y| |] eqn:E; try discriminate.
    now rewrite (Hexec _ _ _ _ _ E).
Qed.

Lemma run_nodes_mono
    (exec1 exec2 : kind -> string -> value -> M world (string * option string))
    (Hexec : forall k n b w x, exec1 k n b w = Done x -> exec2 k n b w = Done x)
    (k : kind) (ns : list node) :
  forall (buf : string) (w : world) (x : (string * option string) * world),
    run_nodes exec1 k ns buf w = Done x -> run_nodes exec2 k ns buf w = Done x.
Proof.
  induction ns as [|[s|f] ns IH]; intros buf w x; simpl.
  - intros E; exact E.
  - apply IH.
  - unfold bind, get.
    destruct (funcs (tree_of k w) !! f) as [h|]; [|intros E; exact E].
    destruct (call_helper exec1 h w) as [[r w2]| |] eqn:E; try discriminate.
    rewrite (call_helper_mono exec1 exec2 Hexec _ _ _ E).
    destruct (snd r); [intros E'; exact E' | apply IH].
Qed.

Lemma execute_mono (fuel : nat) :
  forall (k : kind) (name : string) (binding : value) (w : world)
         (x : (string * option string) * world),
    execute fuel k name binding w = Done x ->
    execute (S fuel) k name binding w = Done x.
Proof.
  induction fuel as [|fuel IH]; intros k name binding w x; [discriminate|].
  intros E. simpl in E |- *. revert E.
  unfold ExecuteTemplate, bind, modify, get, ret. simpl.
  destruct (tmpls (tree_of k (with_bufpool bpool.Get w)) !! name) as [ns|];
    [|intros E; exact E].
  apply run_nodes_mono. intros k0 n0 b0 w0 x0. apply IH.
Qed.

(** ** The model at work *)

Example compile_layout_fs :
  @compile sample_host (prepareOptions []) layout_fs
  = Done (m_ht sample_middleware, m_tt sample_middleware)
  /\ tmpls (m_ht sample_middleware) !! "content" = Some [NText "hi"]
  /\ tmpls (m_ht sample_middleware) !! "L"
     = Some [NText "L["; NCall "yield"; NText "]"]
  /\ tmpls (m_ht sample_middleware) !! "templates" = Some [NText "Martini"]
  /\ funcs (m_ht sample_middleware) !! "yield" = Some HYieldNone.
Proof. repeat split; vm_compute; reflexivity. Qed.

Example compile_long_extension :
  exists ht tt',
    @compile sample_host
      {| Directory := "templates"; Layout := EmptyString;
         Extensions := [".html.tmpl"]; HtmlFuncs := []; TextFuncs := [];
         OptDelims := {| Left := EmptyString; Right := EmptyString |};
         Charset := EmptyString; IndentJSON := false; IndentXML := false;
         PrefixJSON := EmptyString; PrefixXML := EmptyString;
         HTMLContentType := ContentHTML; Extra := ∅ |}
      fs_two_dots = Done (ht, tt')
    /\ tmpls ht !! "page" = Some [NText "x"]
    /\ tmpls tt' !! "page" = Some [NText "x"].
Proof.
  eexists. eexists. split; [vm_compute; reflexivity|].
  split; vm_compute; reflexivity.
Qed.

Example compile_delims_break_placeholder :
  @compile sample_host
    {| Directory := "templates"; Layout := EmptyString;
       Extensions := [".tmpl"]; HtmlFuncs := []; TextFuncs := [];
       OptDelims := {| Left := "Mar"; Right := "ni" |};
       Charset := EmptyString; IndentJSON := false; IndentXML := false;
       PrefixJSON := EmptyString; PrefixXML := EmptyString;
       HTMLContentType := ContentHTML; Extra := ∅ |}
    layout_fs
  = Panic ("function " ++ quote ++ "ti" ++ quote ++ " not defined").
Proof. vm_compute. reflexivity. Qed.

Example HTML_escapes_current :
  emit Escaping (TString "a<b") = "a&lt;b" /\ emit Plain (TString "a<b") = "a<b".
Proof. split; reflexivity. Qed.

Example Data_sets_binary :
  exists w',
    Data sample_renderer 200 "abc" empty_world = Done (tt, w')
    /\ headers (res w') !! ContentType = Some [ContentBinary]
    /\ code (res w') = Some 200
    /\ body (res w') = "abc".
Proof. eexists. split; [reflexivity|]. repeat split; vm_compute; reflexivity. Qed.

(** * Further properties *)

(** ** What [HTML] and [TEXT] do before they answer *)

Lemma HTML_render_effect `{Host} (fuel : nat) (r : renderer) (name : string)
    (binding : value) (htmlOpt : list HTMLOptions) (w w2 : world)
    (be : string * option string) :
  HTML_render fuel r name binding htmlOpt w = Done (be, w2) ->
  res w2 = res w
  /\ r_tt w2 = r_tt w
  /\ r_ht w2
     = (if Nat.ltb 0 (String.length (HLayout (prepareHTMLOptions r htmlOpt)))
        then Template.Funcs (yieldHtmlFuncs name binding) (r_ht w)
        else r_ht w)
  /\ store w2
     = store_after_merge (HExtra (prepareHTMLOptions r htmlOpt)) binding (store w)
  /\ stdout w2
     = match json_MarshalIndent
               (store_after_merge (HExtra (prepareHTMLOptions r htmlOpt))
                  binding (store w)) binding EmptyString " " with
       | Ok b => stdout w ++ b ++ newline
       | Error _ => stdout w
       end
  /\ puts (bufpool w2) = puts (bufpool w)
  /\ (gets (bufpool w) < gets (bufpool w2))%nat.
Proof.
  unfold HTML_render, executeHtml, addYieldHtml, merge_into_binding, Println,
    store_after_merge.
  set (o := prepareHTMLOptions r htmlOpt).
  unfold bind, get, ret, modify, panic.
  destruct (Nat.ltb 0 (String.length (HLayout o)));
    destruct binding as [|s|l| |tag]; simpl;
    try (destruct (map_to_list (HExtra o)) as [|kv kvs]; [|discriminate]);
    simpl;
    match goal with
    | |- context [json_MarshalIndent ?a ?b ?c ?d] =>
        destruct (json_MarshalIndent a b c d) as [js|je]
    end; simpl;
    intros E; apply execute_frame in E;
    destruct E as ((Hres & Hht & Htt & Hst & Hout & Hp & _) & Hg);
    simpl in *; repeat split; assumption.
Qed.

Lemma TEXT_render_effect (fuel : nat) (r : renderer) (name : string)
    (binding : value) (htmlOpt : list HTMLOptions) (w w2 : world)
    (be : string * option string) :
  TEXT_render fuel r name binding htmlOpt w = Done (be, w2) ->
  res w2 = res w
  /\ r_tt w2 = r_tt w
  /\ r_ht w2
     = (if Nat.ltb 0 (String.length (HLayout (prepareHTMLOptions r htmlOpt)))
        then Template.Funcs (yieldTextFuncs name binding) (r_ht w)
        else r_ht w)
  /\ store w2 = store w
  /\ stdout w2 = stdout w
  /\ puts (bufpool w2) = puts (bufpool w)
  /\ (gets (bufpool w) < gets (bufpool w2))%nat.
Proof.
  unfold TEXT_render, executeText, addYieldText.
  set (o := prepareHTMLOptions r htmlOpt).
  unfold bind, get, ret, modify.
  destruct (Nat.ltb 0 (String.length (HLayout o))); simpl;
    intros E; apply execute_frame in E;
    destruct E as ((Hres & Hht & Htt & Hst & Hout & Hp & _) & Hg);
    simpl in *; repeat split; assumption.
Qed.

(** [HTML] and [TEXT] answer in one of two ways. *)
Lemma HTML_answer `{Host} (fuel : nat) (r : renderer) (status : Z)
    (name : string) (binding : value) (htmlOpt : list HTMLOptions)
    (w w' : world) :
  HTML fuel r status name binding htmlOpt w = Done (tt, w') ->
  exists buf err w2,
    HTML_render fuel r name binding htmlOpt w = Done ((buf, err), w2)
    /\ w' = match err with
            | Some e => with_res (http.Error e 500) w2
            | None =>
                with_bufpool bpool.Put
                  (with_res (io_Copy buf)
                     (with_res (http.WriteHeader status)
                        (with_res (http.HeaderSet ContentType
                                     (HTMLContentType (opt r)
                                      ++ compiledCharset r)) w2)))
            end.
Proof.
  unfold HTML. unfold bind at 1.
  destruct (HTML_render fuel r name binding htmlOpt w)
    as [[[buf [e|]] w2]| |]; try discriminate; simpl;
    intros [= <-]; eauto.
Qed.

Lemma TEXT_answer (fuel : nat) (r : renderer) (status : Z)
    (name : string) (binding : value) (htmlOpt : list HTMLOptions)
    (w w' : world) :
  TEXT fuel r status name binding htmlOpt w = Done (tt, w') ->
  exists buf err w2,
    TEXT_render fuel r name binding htmlOpt w = Done ((buf, err), w2)
    /\ w' = match err with
            | Some e => with_res (http.Error e 500) w2
            | None =>
                with_bufpool bpool.Put
                  (with_res (io_Copy buf)
                     (with_res (http.WriteHeader status)
                        (with_res (http.HeaderSet ContentType
                                     (HTMLContentType (opt r)
                                      ++ compiledCharset r)) w2)))
            end.
Proof.
  unfold TEXT. unfold bind at 1.
  destruct (TEXT_render fuel r name binding htmlOpt w)
    as [[[buf [e|]] w2]| |]; try discriminate; simpl;
    intros [= <-]; eauto.
Qed.

(** ** [prepareOptions] *)

(** X1.  [prepareOptions] reads the first options value only, keeps every
    field the caller filled, and fills an empty directory, an empty list of
    extensions and an empty HTML content type with the defaults; its result
    never has one of the three empty, and preparing it again changes
    nothing. *)
Theorem prepareOptions_defaults (given : Options) (rest : list Options) :
  let o := prepareOptions (given :: rest) in
  Directory o = (match Directory given with
                 | EmptyString => "templates"
                 | d => d
                 end)
  /\ Extensions o = (match Extensions given with
                     | [] => [".tmpl"]
                     | es => es
                     end)
  /\ HTMLContentType o = (match HTMLContentType given with
                          | EmptyString => "text/html"
                          | c => c
                          end)
  /\ Directory o <> EmptyString
  /\ Extensions o <> []
  /\ HTMLContentType o <> EmptyString
  /\ (Layout o = Layout given /\ HtmlFuncs o = HtmlFuncs given
      /\ TextFuncs o = TextFuncs given /\ OptDelims o = OptDelims given
      /\ Charset o = Charset given /\ IndentJSON o = IndentJSON given
      /\ IndentXML o = IndentXML given /\ PrefixJSON o = PrefixJSON given
      /\ PrefixXML o = PrefixXML given /\ Extra o = Extra given)
  /\ prepareOptions [o] = o
  /\ prepareOptions [] = prepareOptions [zeroOptions].
Proof.
  destruct given as [d lay es hf tf dl cs ij ix pj px ct ex].
  destruct d as [|d0 d']; destruct es as [|e0 es']; destruct ct as [|c0 ct'];
    intros o; vm_compute in o; subst o;
    repeat match goal with
           | |- _ /\ _ => split
           end;
    try discriminate; vm_compute; reflexivity.
Qed.

(** ** [getExt] *)

(** X2.  [getExt s] is the end of [s] from its first dot on: [s] is the
    part before the first dot followed by [getExt s]; the result is empty
    exactly when [s] has no dot and begins with a dot otherwise; and taking
    the extension of an extension gives it back. *)
Theorem getExt_shape (s : string) :
  s = stem s ++ getExt s
  /\ strings.IndexNat (stem s) dot = None
  /\ (getExt s = EmptyString <-> strings.IndexNat s dot = None)
  /\ (strings.IndexNat s dot <> None ->
      exists rest, getExt s = String dot rest)
  /\ getExt (getExt s) = getExt s.
Proof.
  split; [apply getExt_stem|]. split; [apply stem_no_dot|].
  assert (Hshape : (strings.IndexNat s dot = None /\ getExt s = EmptyString)
                   \/ (strings.IndexNat s dot <> None
                       /\ exists rest, getExt s = String dot rest)).
  { unfold getExt. destruct (Z.eqb (strings.Index s dot) (-1)) eqn:E.
    - left. split; [now apply IndexNat_Index_none | reflexivity].
    - right. split.
      + intros Hn. apply IndexNat_Index_none in Hn. congruence.
      + eexists. reflexivity. }
  split; [|split].
  - destruct Hshape as [[Hn He]|[Hn [rest He]]]; split; intros; try assumption;
      congruence.
  - intros Hn. destruct Hshape as [[Hn' _]|[_ Hr]]; [congruence | exact Hr].
  - destruct Hshape as [[_ He]|[_ [rest He]]]; rewrite He; [reflexivity|].
    unfold getExt, strings.Index. simpl strings.IndexNat. simpl strings.Split.
    unfold dot. simpl. now rewrite Join_Split.
Qed.

(** ** [XML], [Data], [Error], [Status] *)

(** X3.  When the value encodes without error, [XML(status, v)] on a
    response nothing was written to sets Content-Type to text/xml followed
    by the charset suffix, writes the status, and the body is the
    configured prefix followed by the encoding, indented when [IndentXML]
    is set and compact otherwise. *)
Theorem XML_success `{Host} (r : renderer) (status : Z) (v : value) (w : world)
    (enc : string) :
  xml_encode r w v = Ok enc ->
  valid_status status ->
  code (res w) = None ->
  body (res w) = EmptyString ->
  exists w',
    XML r status v w = Done (tt, w')
    /\ headers (res w') !! ContentType = Some [ContentXML ++ compiledCharset r]
    /\ code (res w') = Some status
    /\ body (res w') = PrefixXML (opt r) ++ enc
    /\ (IndentXML (opt r) = true ->
        xml_MarshalIndent (store w) v EmptyString "  " = Ok enc)
    /\ (IndentXML (opt r) = false -> xml_Marshal (store w) v = Ok enc).
Proof.
  intros Henc _ Hc Hb. unfold XML, bind, get, modify, ret. rewrite Henc.
  unfold xml_encode in Henc.
  destruct (PrefixXML (opt r)) as [|a pre] eqn:Hp; simpl;
    (eexists; split; [reflexivity|]); simpl;
    rewrite ?headers_Write, ?headers_WriteHeader, ?code_Write, ?body_Write;
    unfold http.WriteHeader; simpl; rewrite Hc; simpl; rewrite Hb; simpl;
    (split; [apply lookup_insert_eq|]); (split; [reflexivity|]);
    (split; [reflexivity|]);
    split; intros Hi; rewrite Hi in Henc; exact Henc.
Qed.

Lemma XML_success_witness :
  exists w',
    @XML sample_host sample_renderer 201 (VString "hello") empty_world
    = Done (tt, w')
    /\ headers (res w') !! ContentType
       = Some [ContentXML ++ compiledCharset sample_renderer]
    /\ code (res w') = Some 201
    /\ body (res w')
       = PrefixXML (opt sample_renderer) ++ "<string>hello</string>"
    /\ (IndentXML (opt sample_renderer) = true ->
        @xml_MarshalIndent sample_host (store empty_world) (VString "hello")
          EmptyString "  " = Ok "<string>hello</string>")
    /\ (IndentXML (opt sample_renderer) = false ->
        @xml_Marshal sample_host (store empty_world) (VString "hello")
        = Ok "<string>hello</string>").
Proof.
  apply (@XML_success sample_host sample_renderer 201 (VString "hello")
           empty_world "<string>hello</string>");
    try reflexivity. unfold valid_status. lia.
Defined.

Lemma code_WriteHeader_fresh (c : Z) (rs : response) :
  code rs = None -> code (http.WriteHeader c rs) = Some c.
Proof. intros E. unfold http.WriteHeader. now rewrite E. Qed.

Lemma body_WriteHeader (c : Z) (rs : response) :
  body (http.WriteHeader c rs) = body rs.
Proof. unfold http.WriteHeader. now destruct (code rs). Qed.

(** X4.  [Data] writes the status and the bytes as they are; it sets
    Content-Type to application/octet-stream only when the response has no
    Content-Type yet, and leaves a Content-Type set before untouched. *)
Theorem Data_content_type (r : renderer) (status : Z) (v : string) (w : world) :
  valid_status status ->
  code (res w) = None ->
  exists w',
    Data r status v w = Done (tt, w')
    /\ code (res w') = Some status
    /\ body (res w') = body (res w) ++ v
    /\ (http.HeaderGet ContentType (res w) = EmptyString ->
        headers (res w')
        = <[ContentType := [ContentBinary]]> (headers (res w)))
    /\ (http.HeaderGet ContentType (res w) <> EmptyString ->
        headers (res w') = headers (res w))
    /\ only_response w w'.
Proof.
  intros _ Hc. unfold Data, bind, get, modify, ret.
  destruct (String.eqb_spec (http.HeaderGet ContentType (res w)) EmptyString)
    as [E|E]; cbv beta iota; (eexists; split; [reflexivity|]);
    cbn [res with_res];
    rewrite code_Write, body_Write, headers_Write, headers_WriteHeader,
      body_WriteHeader;
    rewrite code_WriteHeader_fresh by exact Hc;
    (split; [reflexivity|]); (split; [reflexivity|]);
    (split; [intros E'; try reflexivity; congruence|]);
    (split; [intros E'; try reflexivity; congruence|]);
    unfold only_response; repeat split; reflexivity.
Qed.

Lemma Data_content_type_witness :
  exists w',
    Data sample_renderer 200 "abc" typed_world = Done (tt, w')
    /\ code (res w') = Some 200
    /\ body (res w') = body (res typed_world) ++ "abc"
    /\ (http.HeaderGet ContentType (res typed_world) = EmptyString ->
        headers (res w')
        = <[ContentType := [ContentBinary]]> (headers (res typed_world)))
    /\ (http.HeaderGet ContentType (res typed_world) <> EmptyString ->
        headers (res w') = headers (res typed_world))
    /\ only_response typed_world w'.
Proof.
  apply (Data_content_type sample_renderer 200 "abc" typed_world);
    [unfold valid_status; lia | reflexivity].
Defined.

Lemma JSON_only_response `{Host} (r : renderer) (status : Z) (v : value)
    (w : world) :
  exists w', JSON r status v w = Done (tt, w') /\ only_response w w'.
Proof.
  unfold JSON, bind, get, modify, ret, http_Error.
  destruct (json_encode r w v) as [enc|e];
    [destruct (Nat.ltb 0 (String.length (PrefixJSON (opt r))))|];
    simpl; eexists; (split; [reflexivity|]);
    unfold only_response; simpl; repeat split; reflexivity.
Qed.

Lemma XML_only_response `{Host} (r : renderer) (status : Z) (v : value)
    (w : world) :
  exists w', XML r status v w = Done (tt, w') /\ only_response w w'.
Proof.
  unfold XML, bind, get, modify, ret, http_Error.
  destruct (xml_encode r w v) as [enc|e];
    [destruct (Nat.ltb 0 (String.length (PrefixXML (opt r))))|];
    simpl; eexists; (split; [reflexivity|]);
    unfold only_response; simpl; repeat split; reflexivity.
Qed.

(** X5.  [JSON], [XML], [Data], [Error], [Status] and [Redirect] act on
    the response only: the template sets, the pool, the caller's maps and
    standard output are as before.  Given a status [WriteHeader] accepts,
    the first five return whatever the value; [Error] and [Status] do the
    same thing. *)
Theorem serializers_touch_only_response `{Host} (r : renderer) (status : Z)
    (v : value) (data location : string) (codes : list Z) (w : world) :
  valid_status status ->
  (exists w', JSON r status v w = Done (tt, w') /\ only_response w w')
  /\ (exists w', XML r status v w = Done (tt, w') /\ only_response w w')
  /\ (exists w', Data r status data w = Done (tt, w') /\ only_response w w')
  /\ (exists w', Error_ r status w = Done (tt, w') /\ only_response w w')
  /\ (exists w', Status r status w = Done (tt, w') /\ only_response w w')
  /\ (forall w', Redirect r location codes w = Done (tt, w') ->
                 only_response w w')
  /\ Error_ r status w = Status r status w.
Proof.
  intros _.
  assert (Hrefl : forall f, only_response w (with_res f w)).
  { intros f. unfold only_response. simpl. repeat split; reflexivity. }
  split; [apply JSON_only_response|]. split; [apply XML_only_response|].
  split; [|split; [|split; [|split]]].
  - unfold Data, bind, get, modify, ret.
    destruct (String.eqb (http.HeaderGet ContentType (res w)) EmptyString);
      simpl; eexists; (split; [reflexivity|]);
      unfold only_response; simpl; repeat split; reflexivity.
  - eexists. split; [reflexivity | apply Hrefl].
  - eexists. split; [reflexivity | apply Hrefl].
  - intros w' [= <-]. apply Hrefl.
  - reflexivity.
Qed.

Lemma serializers_touch_only_response_witness :
  (exists w', @JSON sample_host sample_renderer 200 (VOther 0) layout_world
              = Done (tt, w') /\ only_response layout_world w')
  /\ (exists w', @XML sample_host sample_renderer 200 (VOther 0) layout_world
                 = Done (tt, w') /\ only_response layout_world w')
  /\ (exists w', Data sample_renderer 200 "abc" layout_world = Done (tt, w')
                 /\ only_response layout_world w')
  /\ (exists w', Error_ sample_renderer 200 layout_world = Done (tt, w')
                 /\ only_response layout_world w')
  /\ (exists w', Status sample_renderer 200 layout_world = Done (tt, w')
                 /\ only_response layout_world w')
  /\ (forall w', @Redirect sample_host sample_renderer "/x" [301] layout_world
                 = Done (tt, w') ->
                 only_response layout_world w')
  /\ Error_ sample_renderer 200 layout_world
     = Status sample_renderer 200 layout_world.
Proof.
  apply (@serializers_touch_only_response sample_host sample_renderer 200
           (VOther 0) "abc" "/x" [301] layout_world).
  unfold valid_status. lia.
Defined.

(** ** Rendering: errors, helper tables, the pool *)

Lemma HTML_render_eq `{Host} (fuel : nat) (r : renderer) (name : string)
    (binding : value) (htmlOpt : list HTMLOptions) (w : world) :
  binding <> VNilMap ->
  HTML_render fuel r name binding htmlOpt w
  = executeHtml fuel (executed_name r name htmlOpt) binding
      (before_execute r name binding htmlOpt w).
Proof.
  intros Hnil.
  unfold HTML_render, before_execute, executed_name, addYieldHtml,
    merge_into_binding, Println.
  set (o := prepareHTMLOptions r htmlOpt).
  unfold bind, get, ret, modify.
  destruct (Nat.ltb 0 (String.length (HLayout o)));
    destruct binding as [|s|l| |tag]; try congruence; simpl;
    match goal with
    | |- context [json_MarshalIndent ?a ?b ?c ?d] =>
        destruct (json_MarshalIndent a b c d) as [js|je]
    end; reflexivity.
Qed.

Lemma before_execute_fields `{Host} (r : renderer) (name : string)
    (binding : value) (htmlOpt : list HTMLOptions) (w : world) :
  res (before_execute r name binding htmlOpt w) = res w
  /\ bufpool (before_execute r name binding htmlOpt w) = bufpool w
  /\ tmpls (r_ht (before_execute r name binding htmlOpt w)) = tmpls (r_ht w)
  /\ (HLayout (prepareHTMLOptions r htmlOpt) = EmptyString ->
      r_ht (before_execute r name binding htmlOpt w) = r_ht w).
Proof.
  unfold before_execute. set (o := prepareHTMLOptions r htmlOpt).
  destruct (HLayout o) as [|c lay]; simpl;
    destruct binding as [|s|l| |tag]; simpl;
    match goal with
    | |- context [json_MarshalIndent ?a ?b ?c ?d] =>
        destruct (json_MarshalIndent a b c d) as [js|je]
    end; simpl; repeat split; try reflexivity; discriminate.
Qed.

Lemma empty_layout (s : string) :
  Nat.ltb 0 (String.length s) = false <-> s = EmptyString.
Proof.
  destruct s; split; intros E; try reflexivity; discriminate E.
Qed.

Lemma HTML_error_answer `{Host} (fuel : nat) (r : renderer) (status : Z)
    (name : string) (binding : value) (htmlOpt : list HTMLOptions)
    (w w2 : world) (buf e : string) :
  HTML_render fuel r name binding htmlOpt w = Done ((buf, Some e), w2) ->
  res w2 = res w ->
  code (res w) = None ->
  body (res w) = EmptyString ->
  exists w',
    HTML fuel r status name binding htmlOpt w = Done (tt, w')
    /\ code (res w') = Some 500
    /\ body (res w') = e ++ newline
    /\ headers (res w') !! ContentType = Some ["text/plain; charset=utf-8"]
    /\ bufpool w' = bufpool w2.
Proof.
  intros Hr Hres Hc Hb. unfold HTML. unfold bind at 1. rewrite Hr.
  exists (with_res (http.Error e 500) w2). split; [reflexivity|].
  cbn [res with_res bufpool]. rewrite Hres.
  destruct (http_Error_fresh e 500 (res w) Hc Hb) as (A & B & C).
  repeat split; assumption.
Qed.

Lemma TEXT_error_answer (fuel : nat) (r : renderer) (status : Z)
    (name : string) (binding : value) (htmlOpt : list HTMLOptions)
    (w w2 : world) (buf e : string) :
  TEXT_render fuel r name binding htmlOpt w = Done ((buf, Some e), w2) ->
  res w2 = res w ->
  code (res w) = None ->
  body (res w) = EmptyString ->
  exists w',
    TEXT fuel r status name binding htmlOpt w = Done (tt, w')
    /\ code (res w') = Some 500
    /\ body (res w') = e ++ newline
    /\ headers (res w') !! ContentType = Some ["text/plain; charset=utf-8"]
    /\ bufpool w' = bufpool w2.
Proof.
  intros Hr Hres Hc Hb. unfold TEXT. unfold bind at 1. rewrite Hr.
  exists (with_res (http.Error e 500) w2). split; [reflexivity|].
  cbn [res with_res bufpool]. rewrite Hres.
  destruct (http_Error_fresh e 500 (res w) Hc Hb) as (A & B & C).
  repeat split; assumption.
Qed.



(** X7.  [HTML] never touches the plain tree nor the templates of the
    escaping tree.  Without a layout it leaves the helpers of the escaping
    tree as they were; with a layout it binds [yield] and [current] to the
    name and binding of the call, leaves every other helper alone, and does
    not undo the binding when it returns. *)
Theorem HTML_helper_tables `{Host} (fuel : nat) (r : renderer) (status : Z)
    (name : string) (binding : value) (htmlOpt : list HTMLOptions)
    (w w' : world) :
  HTML fuel r status name binding htmlOpt w = Done (tt, w') ->
  r_tt w' = r_tt w
  /\ tmpls (r_ht w') = tmpls (r_ht w)
  /\ (HLayout (prepareHTMLOptions r htmlOpt) = EmptyString ->
      r_ht w' = r_ht w)
  /\ (HLayout (prepareHTMLOptions r htmlOpt) <> EmptyString ->
      funcs (r_ht w') !! "yield" = Some (HYieldHtml name binding)
      /\ funcs (r_ht w') !! "current" = Some (HCurrent name)
      /\ forall f, f <> "yield" -> f <> "current" ->
                   funcs (r_ht w') !! f = funcs (r_ht w) !! f).
Proof.
  intros HH. destruct (HTML_answer _ _ _ _ _ _ _ _ HH) as (buf & err & w2 & Hr & ->).
  destruct (HTML_render_effect _ _ _ _ _ _ _ _ Hr) as (_ & Htt & Hht & _).
  assert (E1 : r_tt (match err with
                     | Some e => with_res (http.Error e 500) w2
                     | None =>
                         with_bufpool bpool.Put
                           (with_res (io_Copy buf)
                              (with_res (http.WriteHeader status)
                                 (with_res (http.HeaderSet ContentType
                                              (HTMLContentType (opt r)
                                               ++ compiledCharset r)) w2)))
                     end) = r_tt w2) by (destruct err; reflexivity).
  assert (E2 : r_ht (match err with
                     | Some e => with_res (http.Error e 500) w2
                     | None =>
                         with_bufpool bpool.Put
                           (with_res (io_Copy buf)
                              (with_res (http.WriteHeader status)
                                 (with_res (http.HeaderSet ContentType
                                              (HTMLContentType (opt r)
                                               ++ compiledCharset r)) w2)))
                     end) = r_ht w2) by (destruct err; reflexivity).
  rewrite E1, E2, Htt, Hht. clear E1 E2.
  split; [reflexivity|].
  split; [destruct (Nat.ltb _ _); reflexivity|].
  split.
  - intros E. apply empty_layout in E. now rewrite E.
  - intros Hne.
    destruct (Nat.ltb 0 (String.length (HLayout (prepareHTMLOptions r htmlOpt))))
      eqn:E; [|apply empty_layout in E; congruence].
    simpl. split; [apply yieldHtmlFuncs_yield|].
    split; [apply yieldHtmlFuncs_current|].
    intros f Hy Hc. apply lookup_union_r. unfold yieldHtmlFuncs.
    rewrite !lookup_insert_ne by congruence. apply lookup_empty.
Qed.

Lemma HTML_helper_tables_witness :
  r_tt map_world_after_HTML = r_tt map_world
  /\ tmpls (r_ht map_world_after_HTML) = tmpls (r_ht map_world)
  /\ (HLayout (prepareHTMLOptions sample_renderer [extra_kv]) = EmptyString ->
      r_ht map_world_after_HTML = r_ht map_world)
  /\ (HLayout (prepareHTMLOptions sample_renderer [extra_kv]) <> EmptyString ->
      funcs (r_ht map_world_after_HTML) !! "yield"
      = Some (HYieldHtml "content" (VMap 1%positive))
      /\ funcs (r_ht map_world_after_HTML) !! "current" = Some (HCurrent "content")
      /\ forall f, f <> "yield" -> f <> "current" ->
                   funcs (r_ht map_world_after_HTML) !! f
                   = funcs (r_ht map_world) !! f).
Proof.
  apply (@HTML_helper_tables sample_host 3 sample_renderer 200 "content"
           (VMap 1%positive) [extra_kv] map_world map_world_after_HTML).
  vm_compute. reflexivity.
Defined.

(** X8.  Pool accounting.  [JSON] and [XML] never use the pool.  Every
    [HTML] or [TEXT] call that returns took at least one buffer, and put
    exactly one back when it succeeded and none when it answered 500. *)
Theorem pool_accounting `{Host} (r : renderer) (c : call) (w w' : world) :
  perform r c w = Done (tt, w') ->
  match c with
  | CallJSON _ _ | CallXML _ _ => bufpool w' = bufpool w
  | _ =>
      (gets (bufpool w) < gets (bufpool w'))%nat
      /\ puts (bufpool w')
         = (if succeeds r c w then S (puts (bufpool w)) else puts (bufpool w))
  end.
Proof.
  destruct c as [status v|status v|fuel status name binding htmlOpt
                |fuel status name binding htmlOpt]; simpl.
  - intros E. destruct (JSON_only_response r status v w) as (w1 & E1 & O).
    rewrite E in E1. injection E1 as <-. apply O.
  - intros E. destruct (XML_only_response r status v w) as (w1 & E1 & O).
    rewrite E in E1. injection E1 as <-. apply O.
  - intros E. destruct (HTML_answer _ _ _ _ _ _ _ _ E) as (buf & err & w2 & Hr & ->).
    rewrite Hr.
    destruct (HTML_render_effect _ _ _ _ _ _ _ _ Hr) as (_ & _ & _ & _ & _ & Hp & Hg).
    destruct err as [e|]; simpl; split; try assumption; congruence.
  - intros E. destruct (TEXT_answer _ _ _ _ _ _ _ _ E) as (buf & err & w2 & Hr & ->).
    rewrite Hr.
    destruct (TEXT_render_effect _ _ _ _ _ _ _ _ Hr) as (_ & _ & _ & _ & _ & Hp & Hg).
    destruct err as [e|]; simpl; split; try assumption; congruence.
Qed.

Lemma pool_accounting_witness :
  (gets (bufpool map_world) < gets (bufpool map_world_after_HTML))%nat
  /\ puts (bufpool map_world_after_HTML)
     = (if @succeeds sample_host sample_renderer
             (CallHTML 3 200 "content" (VMap 1%positive) [extra_kv]) map_world
        then S (puts (bufpool map_world))
        else puts (bufpool map_world)).
Proof.
  apply (@pool_accounting sample_host sample_renderer
           (CallHTML 3 200 "content" (VMap 1%positive) [extra_kv])
           map_world map_world_after_HTML).
  vm_compute. reflexivity.
Defined.

(** ** [HTML]: the binding *)



Lemma merge_extra_empty (m : gmap string value) : merge_extra ∅ m = m.
Proof. unfold merge_extra. apply map_fold_empty. Qed.

(** X10.  With no extra pair in effect, [HTML] writes to no map: every map
    object, the one bound included, is after the call what it was
    before. *)
Theorem HTML_no_extra_keeps_maps `{Host} (fuel : nat) (r : renderer)
    (status : Z) (name : string) (binding : value)
    (htmlOpt : list HTMLOptions) (w w' : world) :
  HExtra (prepareHTMLOptions r htmlOpt) = ∅ ->
  HTML fuel r status name binding htmlOpt w = Done (tt, w') ->
  store w' = store w.
Proof.
  intros He HH. apply HTML_store in HH. rewrite HH, He.
  destruct binding as [|s|l| |tag]; try reflexivity.
  apply alter_id. intros m _. apply merge_extra_empty.
Qed.

Lemma HTML_no_extra_keeps_maps_witness :
  exists w',
    @HTML sample_host 3 sample_renderer 200 "content" (VMap 1%positive) []
      map_world = Done (tt, w')
    /\ store w' = store map_world.
Proof.
  eexists. split; [vm_compute; reflexivity|].
  eapply (@HTML_no_extra_keeps_maps sample_host 3 sample_renderer 200
            "content" (VMap 1%positive) [] map_world);
    vm_compute; reflexivity.
Defined.

(** X11.  Every [HTML] call that returns has first printed the binding to
    standard output as indented JSON followed by a newline - the binding
    as it reads after the extra pairs were written - whether the template
    then renders or fails; when the binding does not encode, nothing is
    printed.  [TEXT] prints nothing. *)
Theorem HTML_prints_binding `{Host} (fuel : nat) (r : renderer) (status : Z)
    (name : string) (binding : value) (htmlOpt : list HTMLOptions)
    (w w' : world) :
  HTML fuel r status name binding htmlOpt w = Done (tt, w') ->
  stdout w'
  = match json_MarshalIndent (store w') binding EmptyString " " with
    | Ok b => stdout w ++ b ++ newline
    | Error _ => stdout w
    end
  /\ forall wt wt',
       TEXT fuel r status name binding htmlOpt wt = Done (tt, wt') ->
       stdout wt' = stdout wt.
Proof.
  intros HH. split.
  - destruct (HTML_answer _ _ _ _ _ _ _ _ HH) as (buf & err & w2 & Hr & ->).
    destruct (HTML_render_effect _ _ _ _ _ _ _ _ Hr)
      as (_ & _ & _ & Hst & Hout & _).
    destruct err as [e|]; simpl; now rewrite Hst, Hout.
  - intros wt wt' HT.
    destruct (TEXT_answer _ _ _ _ _ _ _ _ HT) as (buf & err & w2 & Hr & ->).
    destruct (TEXT_render_effect _ _ _ _ _ _ _ _ Hr) as (_ & _ & _ & _ & Hout & _).
    destruct err as [e|]; simpl; exact Hout.
Qed.

Lemma HTML_prints_binding_witness :
  exists w',
    @HTML sample_host 3 sample_renderer 200 "nope" (VString "x") []
      layout_world = Done (tt, w')
    /\ code (res w') = Some 500
    /\ stdout w' = stdout layout_world ++ (quote ++ "x" ++ quote) ++ newline.
Proof.
  pose proof (@HTML_prints_binding sample_host 3 sample_renderer 200 "nope"
                (VString "x") [] layout_world) as P.
  eexists. split; [vm_compute; reflexivity|]. split; [vm_compute; reflexivity|].
  match goal with
  | |- stdout ?w = _ => destruct (P w) as [A _]; [vm_compute; reflexivity|]
  end.
  rewrite A. vm_compute. reflexivity.
Defined.

(** ** Rendering without a layout *)








(** X14.  When the name to execute - the layout if there is one, the
    given name otherwise - has no template in the tree, [HTML] (escaping
    tree) and [TEXT] (plain tree) answer 500 with a plain-text body on a
    response nothing was written to; one buffer is taken and kept. *)
Theorem missing_template_reply `{Host} (fuel : nat) (r : renderer) (status : Z)
    (name : string) (binding : value) (htmlOpt : list HTMLOptions) (w : world) :
  tmpls (r_ht w) !! executed_name r name htmlOpt = None ->
  tmpls (r_tt w) !! executed_name r name htmlOpt = None ->
  binding <> VNilMap ->
  code (res w) = None ->
  body (res w) = EmptyString ->
  (exists w' e,
      HTML (S fuel) r status name binding htmlOpt w = Done (tt, w')
      /\ code (res w') = Some 500
      /\ body (res w') = e ++ newline
      /\ headers (res w') !! ContentType = Some ["text/plain; charset=utf-8"]
      /\ gets (bufpool w') = S (gets (bufpool w))
      /\ puts (bufpool w') = puts (bufpool w))
  /\ (exists w' e,
         TEXT (S fuel) r status name binding htmlOpt w = Done (tt, w')
         /\ code (res w') = Some 500
         /\ body (res w') = e ++ newline
         /\ headers (res w') !! ContentType = Some ["text/plain; charset=utf-8"]
         /\ gets (bufpool w') = S (gets (bufpool w))
         /\ puts (bufpool w') = puts (bufpool w)).
Proof.
  intros Hh Ht Hnil Hc Hb. split.
  - destruct (before_execute_fields r name binding htmlOpt w)
      as (Bres & Bpool & Btm & _).
    assert (Hr : HTML_render (S fuel) r name binding htmlOpt w
                 = Done ((EmptyString,
                          Some (undefined_template Escaping
                                  (r_ht (before_execute r name binding htmlOpt w))
                                  (executed_name r name htmlOpt))),
                         with_bufpool bpool.Get
                           (before_execute r name binding htmlOpt w))).
    { rewrite HTML_render_eq by exact Hnil.
      unfold executeHtml. simpl execute.
      unfold ExecuteTemplate, bind, modify, get, ret.
      cbn [tree_of r_ht with_bufpool]. now rewrite Btm, Hh. }
    destruct (HTML_error_answer _ _ status _ _ _ _ _ _ _ Hr Bres Hc Hb)
      as (w' & E & A & B & C & D).
    exists w'. eexists. split; [exact E|]. split; [exact A|].
    split; [exact B|]. split; [exact C|].
    rewrite D. cbn [bufpool with_bufpool]. rewrite Bpool. split; reflexivity.
  - set (w1 := if Nat.ltb 0 (String.length (HLayout (prepareHTMLOptions r htmlOpt)))
               then with_ht (Template.Funcs (yieldTextFuncs name binding)) w
               else w).
    assert (Hw1 : res w1 = res w /\ bufpool w1 = bufpool w /\ r_tt w1 = r_tt w)
      by (unfold w1; destruct (Nat.ltb _ _); repeat split; reflexivity).
    destruct Hw1 as (Wres & Wpool & Wtt).
    assert (Hr : TEXT_render (S fuel) r name binding htmlOpt w
                 = Done ((EmptyString,
                          Some (undefined_template Plain (r_tt w1)
                                  (executed_name r name htmlOpt))),
                         with_bufpool bpool.Get w1)).
    { unfold TEXT_render, executeText, addYieldText, executed_name, w1 in *.
      destruct (Nat.ltb 0 (String.length (HLayout (prepareHTMLOptions r htmlOpt))));
        unfold bind, modify, ret; cbv beta iota;
        simpl execute; unfold ExecuteTemplate, bind, modify, get, ret;
        cbn [tree_of r_tt with_bufpool with_ht]; now rewrite Ht. }
    destruct (TEXT_error_answer _ _ status _ _ _ _ _ _ _ Hr Wres Hc Hb)
      as (w' & E & A & B & C & D).
    exists w'. eexists. split; [exact E|]. split; [exact A|].
    split; [exact B|]. split; [exact C|].
    rewrite D. cbn [bufpool with_bufpool]. rewrite Wpool. split; reflexivity.
Qed.

Lemma missing_template_reply_witness :
  (exists w' e,
      @HTML sample_host 1 sample_renderer 200 "nope" VNil [] layout_world
      = Done (tt, w')
      /\ code (res w') = Some 500
      /\ body (res w') = e ++ newline
      /\ headers (res w') !! ContentType = Some ["text/plain; charset=utf-8"]
      /\ gets (bufpool w') = S (gets (bufpool layout_world))
      /\ puts (bufpool w') = puts (bufpool layout_world))
  /\ (exists w' e,
         TEXT 1 sample_renderer 200 "nope" VNil [] layout_world = Done (tt, w')
         /\ code (res w') = Some 500
         /\ body (res w') = e ++ newline
         /\ headers (res w') !! ContentType = Some ["text/plain; charset=utf-8"]
         /\ gets (bufpool w') = S (gets (bufpool layout_world))
         /\ puts (bufpool w') = puts (bufpool layout_world)).
Proof.
  apply (@missing_template_reply sample_host 0 sample_renderer 200 "nope" VNil
           [] layout_world);
    try (vm_compute; reflexivity); discriminate.
Defined.

(** ** [compile]: what the two trees hold *)













Lemma run_visits_nothing_configured `{Host} (o : Options)
    (l : list (list string * fnode)) (st : tmplset * tmplset) :
  (forall path node, In (path, node) l -> configured o (rel_of path) = false) ->
  run_visits o l st = Done st.
Proof.
  induction l as [|[path node] l IH]; intros Hno; simpl; [reflexivity|].
  rewrite step_spec, (Hno path node) by now left.
  apply IH. intros p n Hin. apply (Hno p n). now right.
Qed.

(** X19.  A directory in which no visited path has a configured extension
    - an empty directory, or one with other files only, readable or not -
    compiles to the placeholder alone: both trees hold the one template
    named after the directory and know no helper. *)
Theorem compile_nothing_configured `{Host} (o : Options) (fs : fnode)
    (t : tmplset) :
  placeholder o = Ok t ->
  (forall path node,
      In (path, node) (visits [] fs) -> configured o (rel_of path) = false) ->
  compile o fs = Done (t, t)
  /\ (exists ns, tmpls t = {[ Directory o := ns ]})
  /\ funcs t = ∅.
Proof.
  intros Hp Hno. rewrite compile_run_visits, Hp.
  split; [now apply run_visits_nothing_configured|].
  split; [eapply placeholder_only; exact Hp|].
  revert Hp. unfold placeholder, Template.ParseNamed. simpl.
  destruct (parse _ _ _ "Martini") as [ns|e]; [|discriminate].
  rewrite lookup_empty. now intros [= <-].
Qed.

Lemma compile_nothing_configured_witness :
  @compile sample_host (prepareOptions []) no_template_fs
  = Done (default_placeholder, default_placeholder)
  /\ (exists ns, tmpls default_placeholder
                 = {[ Directory (prepareOptions []) := ns ]})
  /\ funcs default_placeholder = ∅.
Proof.
  apply (@compile_nothing_configured sample_host (prepareOptions [])
           no_template_fs default_placeholder).
  - vm_compute. reflexivity.
  - intros path node Hin. simpl in Hin.
    destruct Hin as [E|[E|[E|[]]]]; injection E as <- <-;
      vm_compute; reflexivity.
Defined.

(** ** Template names and the path separator *)

Lemma ReplaceAll_removes (s : string) (c : ascii) :
  c <> "/"%char -> strings.IndexNat (strings.ReplaceAll s c "/") c = None.
Proof.
  intros Hne. induction s as [|a s IH]; [reflexivity|].
  cbn [strings.ReplaceAll]. destruct (Ascii.eqb a c) eqn:Hac.
  - change ("/" ++ strings.ReplaceAll s c "/")
      with (String "/"%char (strings.ReplaceAll s c "/")).
    cbn [strings.IndexNat].
    destruct (Ascii.eqb_spec "/"%char c) as [E|_]; [congruence|].
    now rewrite IH.
  - cbn [strings.IndexNat]. rewrite Hac. now rewrite IH.
Qed.

(** X20.  The name [compile] gives a template is the relative path before
    its first dot with every separator of the host turned into a forward
    slash: on a host whose separator is the slash the name is that part
    unchanged, on any other host the separator does not occur in the
    name. *)
Theorem template_name_separator `{Host} (r : string) :
  template_name r = filepath.ToSlash (stem r)
  /\ (Separator = "/"%char -> template_name r = stem r)
  /\ (Separator <> "/"%char ->
      template_name r = strings.ReplaceAll (stem r) Separator "/"
      /\ strings.IndexNat (template_name r) Separator = None).
Proof.
  rewrite template_name_stem. unfold filepath.ToSlash.
  split; [reflexivity|].
  destruct (Ascii.eqb_spec Separator "/"%char) as [E|E].
  - split; [reflexivity | congruence].
  - split; [congruence|]. intros _. split; [reflexivity|].
    now apply ReplaceAll_removes.
Qed.

Example template_name_nested :
  @template_name backslash_host
    (@rel_of backslash_host ["admin"; "index.tmpl"]) = "admin/index"
  /\ @template_name sample_host
       (@rel_of sample_host ["admin"; "index.tmpl"]) = "admin/index"
  /\ exists ht tt',
       @compile backslash_host (prepareOptions []) nested_fs = Done (ht, tt')
       /\ tmpls ht !! "admin/index" = Some [NText "admin"]
       /\ tmpls tt' !! "admin/index" = Some [NText "admin"].
Proof.
  split; [vm_compute; reflexivity|]. split; [vm_compute; reflexivity|].
  eexists. eexists. split; [vm_compute; reflexivity|].
  split; vm_compute; reflexivity.
Qed.

(** ** The middleware *)



(** ** Options of one call *)

(** X22.  The options given to one [HTML] or [TEXT] call replace the
    defaults as a whole: only the first is read, and the layout and extra
    pairs of the renderer's options play no part, so an options value with
    an empty layout renders without layout even when a default layout is
    configured.  Without options the call does what it does when handed
    the defaults. *)
Theorem call_options_override `{Host} (fuel : nat) (r1 r2 : renderer)
    (status : Z) (name : string) (binding : value) (o : HTMLOptions)
    (rest1 rest2 : list HTMLOptions) (w : world) :
  HTMLContentType (opt r1) = HTMLContentType (opt r2) ->
  compiledCharset r1 = compiledCharset r2 ->
  HTML fuel r1 status name binding (o :: rest1) w
  = HTML fuel r2 status name binding (o :: rest2) w
  /\ TEXT fuel r1 status name binding (o :: rest1) w
     = TEXT fuel r2 status name binding (o :: rest2) w
  /\ HTML fuel r1 status name binding [] w
     = HTML fuel r1 status name binding
         [{| HLayout := Layout (opt r1); HExtra := Extra (opt r1) |}] w
  /\ TEXT fuel r1 status name binding [] w
     = TEXT fuel r1 status name binding
         [{| HLayout := Layout (opt r1); HExtra := Extra (opt r1) |}] w.
Proof.
  intros Hct Hcs. unfold HTML, TEXT, HTML_render, TEXT_render. simpl.
  rewrite Hct, Hcs. repeat split; reflexivity.
Qed.

Lemma call_options_override_witness :
  @HTML sample_host 3 sample_renderer 200 "content" VNil [layout_L; extra_kv]
    layout_world
  = @HTML sample_host 3
      {| req := sample_request;
         opt := prepareOptions
                  [{| Directory := EmptyString; Layout := "other";
                      Extensions := []; HtmlFuncs := []; TextFuncs := [];
                      OptDelims := {| Left := EmptyString; Right := EmptyString |};
                      Charset := EmptyString; IndentJSON := true;
                      IndentXML := false; PrefixJSON := EmptyString;
                      PrefixXML := EmptyString; HTMLContentType := EmptyString;
                      Extra := <["k" := "v"]> ∅ |}];
         compiledCharset := prepareCharset EmptyString |}
      200 "content" VNil [layout_L] layout_world.
Proof.
  apply (@call_options_override sample_host 3 sample_renderer
           {| req := sample_request;
              opt := prepareOptions
                       [{| Directory := EmptyString; Layout := "other";
                           Extensions := []; HtmlFuncs := []; TextFuncs := [];
                           OptDelims := {| Left := EmptyString;
                                           Right := EmptyString |};
                           Charset := EmptyString; IndentJSON := true;
                           IndentXML := false; PrefixJSON := EmptyString;
                           PrefixXML := EmptyString;
                           HTMLContentType := EmptyString;
                           Extra := <["k" := "v"]> ∅ |}];
              compiledCharset := prepareCharset EmptyString |}
           200 "content" VNil layout_L [extra_kv] [] layout_world);
    reflexivity.
Defined.

(** ** Rendering twice *)





